(** * RawBSONDocument: a lazy mapping view over one BSON document

    Shallow embedding of [bson/raw_bson_document.py].  The view owns the raw
    bytes and a nullable cache of the fully decoded document; the element
    scanner [_items] is a generator that validates the header of the buffer
    and then decodes one element per pull.

    The two decoders the module imports from the [bson] package
    ([_element_to_dict] and [BSON.decode]) are parameters of the model. *)

From Stdlib Require Import ZArith Lia.
From stdpp Require Import base list strings gmap fin_maps.

Local Open Scope Z_scope.

(** ** Bytes, Python slices and [struct] unpacking *)

Abbreviation bytes := (list Byte.byte).

Definition len (b : bytes) : Z := Z.of_nat (length b).

(** Python's normalisation of one slice bound against a sequence of length
    [n]: a negative bound counts from the end, and the result is clamped to
    [0 .. n]. *)
Definition slice_bound (n k : Z) : Z :=
  if k <? 0 then Z.max 0 (k + n) else Z.min k n.

(** [b[i:j]] *)
Definition py_slice (b : bytes) (i j : Z) : bytes :=
  let lo := slice_bound (len b) i in
  let hi := slice_bound (len b) j in
  if lo <? hi then take (Z.to_nat (hi - lo)) (drop (Z.to_nat lo) b) else [].

(** [b[i]]: [None] stands for Python's IndexError. *)
Definition py_index (b : bytes) (i : Z) : option Byte.byte :=
  let k := if i <? 0 then i + len b else i in
  if k <? 0 then None else b !! Z.to_nat k.

Definition byte_val (x : Byte.byte) : Z := Z.of_N (Byte.to_N x).

(** The exceptions the module can let escape. *)
Inductive exn : Type :=
  | InvalidBSON (msg : string)
  | struct_error
  | KeyError (key : string)
  | DecoderError (msg : string).

(** A Python call either returns or raises. *)
Inductive outcome (A : Type) : Type :=
  | Returned (a : A)
  | Raised (e : exn).
Arguments Returned {A} a.
Arguments Raised {A} e.

(** [_UNPACK_INT = struct.Struct("<i").unpack], followed by [[0]]: a signed
    little-endian 32-bit integer out of exactly four bytes. *)
Definition _UNPACK_INT (b : bytes) : outcome Z :=
  match b with
  | [b0; b1; b2; b3] =>
      let u := byte_val b0 + byte_val b1 * 256
               + byte_val b2 * 65536 + byte_val b3 * 16777216 in
      Returned (if u <? 2147483648 then u else u - 4294967296)
  | _ => Raised struct_error
  end.

#[global] Instance byte_eq_dec : EqDecision Byte.byte := Byte.byte_eq_dec.

(** ** Codec options *)

Inductive document_class_t : Type :=
  | dict_class
  | other_class (qualname : string).

Record CodecOptions : Type := mkCodecOptions {
  document_class : document_class_t;
  tz_aware : bool;
  uuid_representation : Z
}.

(** ** The view, its cache and the calls to the external decoders *)

(** What an operation asked of the [bson] package: one full decode of the
    buffer, or the decode of the single element at [position]. *)
Inductive event : Type :=
  | FullDecode
  | ElementDecode (position : Z).

(** One pull on a generator: a pair, the end of the iteration, or an
    exception that escapes the generator body. *)
Inductive pulled (Value : Type) : Type :=
  | Yield (name : string) (value : Value)
  | StopIteration
  | Raise (e : exn).
Arguments Yield {Value} name value.
Arguments StopIteration {Value}.
Arguments Raise {Value} e.

(** The suspended states of the generator [_items]. *)
Inductive items_gen (Value : Type) : Type :=
  | Created
  | FromCache (rest : list (string * Value))
  | Scanning (position obj_size obj_end : Z)
  | Exhausted.
Arguments Created {Value}.
Arguments FromCache {Value} rest.
Arguments Scanning {Value} position obj_size obj_end.
Arguments Exhausted {Value}.

Record RawBSONDocument (Value : Type) : Type := mkRawBSONDocument {
  __raw : bytes;
  __inflated_doc : option (gmap string Value);
  __codec_options : CodecOptions
}.
Arguments mkRawBSONDocument {Value} _ _ _.
Arguments __raw {Value} _.
Arguments __inflated_doc {Value} _.
Arguments __codec_options {Value} _.

(** Lines 72-77 of [_items]: the size and terminator checks made on the
    first pull of a generator over a view that has no cache.  Returns
    [(obj_size, obj_end)]. *)
Definition items_header (raw : bytes) : outcome (Z * Z) :=
  match _UNPACK_INT (py_slice raw 0 4) with
  | Raised e => Raised e
  | Returned obj_size =>
      if len raw <? obj_size then Raised (InvalidBSON "invalid object size")
      else
        let obj_end := obj_size - 1 in
        if decide (py_slice raw obj_end obj_size = [Byte.x00])
        then Returned (obj_size, obj_end)
        else Raised (InvalidBSON "bad eoo")
  end.

Section RawBSON.

Context {Value Other : Type}.

Abbreviation dict := (gmap string Value).
Abbreviation view := (RawBSONDocument Value).

(** [bson._element_to_dict(data, position, obj_end, opts)] returns
    [(name, value, position)]. *)
Variable _element_to_dict :
  bytes -> Z -> Z -> CodecOptions -> outcome (string * Value * Z).

(** [BSON.decode(codec_options)]: [None] when the call does not return. *)
Variable decode : bytes -> CodecOptions -> option (outcome dict).

(** Python 2's [cmp] of a dict with an arbitrary object, and [repr]. *)
Variable cmp : dict -> Other -> Z.
Variable repr : dict -> string.

(** An operation on a view returns or raises, leaves the view in a new
    state and has asked the decoders for some work; [None] when it does
    not return. *)
Definition M (A : Type) : Type := option (outcome A * view * list event).

Definition __init__ (bson_bytes : bytes) (codec_options : CodecOptions)
  : view :=
  {| __raw := bson_bytes;
     __inflated_doc := None;
     __codec_options :=
       {| document_class := dict_class;
          tz_aware := tz_aware codec_options;
          uuid_representation := uuid_representation codec_options |} |}.

Definition raw (self : view) : bytes := __raw self.

Definition set_inflated_doc (self : view) (d : dict) : view :=
  {| __raw := __raw self;
     __inflated_doc := Some d;
     __codec_options := __codec_options self |}.

Definition __inflated (self : view) : M dict :=
  match __inflated_doc self with
  | Some d => Some (Returned d, self, [])
  | None =>
      match decode (__raw self) (__codec_options self) with
      | None => None
      | Some (Returned d) =>
          Some (Returned d, set_inflated_doc self d, [FullDecode])
      | Some (Raised e) => Some (Raised e, self, [FullDecode])
      end
  end.

(** [f(self.__inflated)] for a function [f] of the cached dict. *)
Definition with_inflated {A : Type} (self : view) (f : dict -> outcome A)
  : M A :=
  match __inflated self with
  | None => None
  | Some (Returned d, self', t) => Some (f d, self', t)
  | Some (Raised e, self', t) => Some (Raised e, self', t)
  end.

(** *** The generator [_items] *)

(** Calling [self._items()] only creates the generator. *)
Definition _items (self : view) : items_gen Value := Created.

Definition cache_next (rest : list (string * Value))
  : pulled Value * items_gen Value * list event :=
  match rest with
  | [] => (StopIteration, Exhausted, [])
  | (name, value) :: rest' => (Yield name value, FromCache rest', [])
  end.

(** One turn of [while position < obj_end]. *)
Definition scan_next (self : view) (position obj_size obj_end : Z)
  : pulled Value * items_gen Value * list event :=
  if position <? obj_end then
    match _element_to_dict (raw self) position obj_size
            (__codec_options self) with
    | Returned (name, value, position') =>
        (Yield name value, Scanning position' obj_size obj_end,
         [ElementDecode position])
    | Raised e => (Raise e, Exhausted, [ElementDecode position])
    end
  else (StopIteration, Exhausted, []).

(** [next(g)] for a generator [g = self._items()]: the body runs up to
    its next [yield].  The generator reads [self] and never writes it. *)
Definition items_next (self : view) (g : items_gen Value)
  : pulled Value * items_gen Value * list event :=
  match g with
  | Created =>
      match __inflated_doc self with
      | Some d => cache_next (map_to_list d)
      | None =>
          match items_header (__raw self) with
          | Raised e => (Raise e, Exhausted, [])
          | Returned (obj_size, obj_end) =>
              scan_next self 4 obj_size obj_end
          end
      end
  | FromCache rest => cache_next rest
  | Scanning position obj_size obj_end =>
      scan_next self position obj_size obj_end
  | Exhausted => (StopIteration, Exhausted, [])
  end.

(** [n] pulls in a row, as a caller that stops early makes them. *)
Fixpoint pull (n : nat) (self : view) (g : items_gen Value)
  : list (pulled Value) * items_gen Value * list event :=
  match n with
  | O => ([], g, [])
  | S n' =>
      let '(r, g', t) := items_next self g in
      let '(rs, g'', t') := pull n' self g' in
      (r :: rs, g'', t ++ t')
  end.

(** [list(g)]: pull until the generator stops or raises. *)
Fixpoint consume (fuel : nat) (self : view) (g : items_gen Value)
  : option (outcome (list (string * Value)) * list event) :=
  match fuel with
  | O => None
  | S fuel' =>
      match items_next self g with
      | (Yield name value, g', t) =>
          match consume fuel' self g' with
          | None => None
          | Some (Returned items, t') =>
              Some (Returned ((name, value) :: items), t ++ t')
          | Some (Raised e, t') => Some (Raised e, t ++ t')
          end
      | (StopIteration, _, t) => Some (Returned [], t)
      | (Raise e, _, t) => Some (Raised e, t)
      end
  end.

(** *** The mapping operations *)

(** [for name, value in g: if name == item: return True] and then
    [return False]. *)
Fixpoint hasitem_loop (fuel : nat) (self : view) (g : items_gen Value)
         (item : string) : option (outcome bool * list event) :=
  match fuel with
  | O => None
  | S fuel' =>
      match items_next self g with
      | (Yield name _, g', t) =>
          if decide (name = item) then Some (Returned true, t)
          else
            match hasitem_loop fuel' self g' item with
            | None => None
            | Some (r, t') => Some (r, t ++ t')
            end
      | (StopIteration, _, t) => Some (Returned false, t)
      | (Raise e, _, t) => Some (Raised e, t)
      end
  end.

Definition __hasitem__ (fuel : nat) (self : view) (item : string)
  : M bool :=
  match __inflated_doc self with
  | Some _ =>
      with_inflated self (fun d => Returned (bool_decide (is_Some (d !! item))))
  | None =>
      match hasitem_loop fuel self Created item with
      | None => None
      | Some (r, t) => Some (r, self, t)
      end
  end.

Definition __getitem__ (self : view) (item : string) : M Value :=
  with_inflated self (fun d =>
    match d !! item with
    | Some v => Returned v
    | None => Raised (KeyError item)
    end).

Definition __iter__ (self : view) : M (list string) :=
  with_inflated self (fun d => Returned (map_to_list d).*1).

Definition __len__ (self : view) : M Z :=
  with_inflated self (fun d => Returned (Z.of_nat (size d))).

Definition __cmp__ (self : view) (other : Other) : M Z :=
  with_inflated self (fun d => Returned (cmp d other)).

Definition __repr__ (self : view) : M string :=
  with_inflated self (fun d => Returned (repr d)).

(** The class defines no [__contains__], so [item in self] runs the one it
    inherits from [collections.Mapping]:
    [try: self[key] / except KeyError: return False / else: return True]. *)
Definition __contains__ (self : view) (key : string) : M bool :=
  match __getitem__ self key with
  | None => None
  | Some (Returned _, self', t) => Some (Returned true, self', t)
  | Some (Raised (KeyError _), self', t) => Some (Returned false, self', t)
  | Some (Raised e, self', t) => Some (Raised e, self', t)
  end.

(** *** Sequences of operations on one view *)

Inductive op : Type :=
  | Getitem (item : string)
  | Iter
  | Len
  | Cmp (other : Other)
  | Repr
  | Contains (key : string)
  | Hasitem (fuel : nat) (item : string)
  | ItemsNext (g : items_gen Value)
  | GetRaw.

(** The operations that read [self.__inflated]. *)
Definition needs_full_decode (o : op) : bool :=
  match o with
  | Getitem _ | Iter | Len | Cmp _ | Repr | Contains _ => true
  | Hasitem _ _ | ItemsNext _ | GetRaw => false
  end.

Definition forget {A : Type} (m : M A) : M unit :=
  match m with
  | None => None
  | Some (Returned _, self', t) => Some (Returned tt, self', t)
  | Some (Raised e, self', t) => Some (Raised e, self', t)
  end.

Definition exec (o : op) (self : view) : M unit :=
  match o with
  | Getitem item => forget (__getitem__ self item)
  | Iter => forget (__iter__ self)
  | Len => forget (__len__ self)
  | Cmp other => forget (__cmp__ self other)
  | Repr => forget (__repr__ self)
  | Contains key => forget (__contains__ self key)
  | Hasitem fuel item => forget (__hasitem__ fuel self item)
  | ItemsNext g =>
      match items_next self g with
      | (Raise e, _, t) => Some (Raised e, self, t)
      | (_, _, t) => Some (Returned tt, self, t)
      end
  | GetRaw => Some (Returned tt, self, [])
  end.

(** The caller goes on after an exception; the run has no final state
    when one operation does not return. *)
Fixpoint run (ops : list op) (self : view) : option (view * list event) :=
  match ops with
  | [] => Some (self, [])
  | o :: ops' =>
      match exec o self with
      | None => None
      | Some (_, self', t) =>
          match run ops' self' with
          | None => None
          | Some (self'', t') => Some (self'', t ++ t')
          end
      end
  end.

(** The states the view goes through, the initial one first. *)
Fixpoint states (ops : list op) (self : view) : list view :=
  self ::
  match ops with
  | [] => []
  | o :: ops' =>
      match exec o self with
      | None => []
      | Some (_, self', _) => states ops' self'
      end
  end.

End RawBSON.

Inductive cache_state : Type := Lazy | Materialized.

Definition state_of {Value : Type} (self : RawBSONDocument Value)
  : cache_state :=
  match __inflated_doc self with
  | None => Lazy
  | Some _ => Materialized
  end.

(** Number of steps of a trace that go from [Lazy] to [Materialized]. *)
Fixpoint materializations {Value : Type} (l : list (RawBSONDocument Value))
  : nat :=
  match l with
  | a :: ((b :: _) as l') =>
      (match state_of a, state_of b with
       | Lazy, Materialized => 1
       | _, _ => 0
       end + materializations l')%nat
  | _ => 0%nat
  end.

(** The first [n] elements found from [position] on, with the position
    after the last of them, when each of them lies before [obj_end] and
    decodes. *)
Fixpoint decoded_prefix {Value : Type}
    (_element_to_dict :
       bytes -> Z -> Z -> CodecOptions -> outcome (string * Value * Z))
    (n : nat) (data : bytes) (opts : CodecOptions)
    (position obj_size obj_end : Z)
  : option (list (string * Value) * list Z * Z) :=
  match n with
  | O => Some ([], [], position)
  | S n' =>
      if position <? obj_end then
        match _element_to_dict data position obj_size opts with
        | Returned (name, value, position') =>
            match decoded_prefix _element_to_dict n' data opts
                    position' obj_size obj_end with
            | Some (items, ps, final) =>
                Some ((name, value) :: items, position :: ps, final)
            | None => None
            end
        | Raised _ => None
        end
      else None
  end.

(** What a caller sees when it pulls the pairs [items] one by one. *)
Definition yields {Value : Type} (items : list (string * Value))
  : list (pulled Value) :=
  map (fun kv => Yield kv.1 kv.2) items.

(** ** The full decoder *)

(** A dict filled in order: a later key overwrites an earlier one. *)
Definition dict_of_items {Value : Type} (items : list (string * Value))
  : gmap string Value :=
  fold_left (fun d kv => <[kv.1 := kv.2]> d) items ∅.

(** A stand-in for the full decoder, to run the model on concrete
    buffers.  It is not [BSON.decode], which is defined in bson/__init__.py
    and is not among the sources: the model takes that decoder as a
    parameter, and no property is stated of this stand-in.  It makes the
    scanner's checks, lets the first error through and returns the mapping
    of the scanned pairs, a later key overwriting an earlier one.  [fuel]
    bounds the number of elements read. *)
Definition decode_document {Value : Type}
    (_element_to_dict :
       bytes -> Z -> Z -> CodecOptions -> outcome (string * Value * Z))
    (fuel : nat) (data : bytes) (opts : CodecOptions)
  : option (outcome (gmap string Value)) :=
  match consume _element_to_dict fuel (mkRawBSONDocument data None opts)
          Created with
  | None => None
  | Some (Returned items, _) => Some (Returned (dict_of_items items))
  | Some (Raised e, _) => Some (Raised e)
  end.

(** ** Stand-in decoders to run the model on concrete buffers

    [sample_element_to_dict] below is not [bson._element_to_dict], which
    the model takes as a parameter: it is a stand-in that reads two element
    types of the BSON format, 0x10 (int32: four bytes, little endian) and
    0x0A (null: no payload), and refuses every other type byte with an
    error of its own.  An element is its type byte, its name as a
    NUL-terminated string and its payload.  The stand-ins only instantiate
    general theorems on example buffers. *)

Inductive bson_value : Type :=
  | Int32 (n : Z)
  | Null.

(** The C string at the head of [data], with the number of bytes it takes
    up, terminator included. *)
Fixpoint get_c_string (data : bytes) : option (string * nat) :=
  match data with
  | [] => None
  | b :: rest =>
      if decide (b = Byte.x00) then Some (EmptyString, 1%nat)
      else
        match get_c_string rest with
        | Some (s, n) => Some (String (Ascii.ascii_of_byte b) s, S n)
        | None => None
        end
  end.

Definition sample_element_to_dict (data : bytes) (position obj_end : Z)
    (opts : CodecOptions) : outcome (string * bson_value * Z) :=
  if position <? 0 then Raised (DecoderError "negative position")
  else
    match drop (Z.to_nat position) data with
    | [] => Raised (DecoderError "truncated element")
    | element_type :: rest =>
        match get_c_string rest with
        | None => Raised (DecoderError "unterminated name")
        | Some (name, n) =>
            let position := position + 1 + Z.of_nat n in
            if decide (element_type = Byte.x10) then
              match _UNPACK_INT (py_slice data position (position + 4)) with
              | Returned v => Returned (name, Int32 v, position + 4)
              | Raised e => Raised e
              end
            else if decide (element_type = Byte.x0a) then
              Returned (name, Null, position)
            else Raised (DecoderError "unknown element type")
        end
    end.

Definition sample_decode : bytes -> CodecOptions ->
                           option (outcome (gmap string bson_value)) :=
  decode_document sample_element_to_dict 16.


(** Stand-ins for [cmp] and [repr], whose values no property depends on. *)
Definition sample_cmp (d : gmap string bson_value) (other : unit) : Z := 0.
Definition sample_repr (d : gmap string bson_value) : string := "{...}".

Definition DEFAULT_CODEC_OPTIONS : CodecOptions :=
  {| document_class := dict_class; tz_aware := false;
     uuid_representation := 3 |}.

Module Samples.
Import Byte.

(** [{}] *)
Definition empty_doc : bytes := [x05; x00; x00; x00; x00].

(** [{"a": 1, "b": None}] *)
Definition doc_a_b : bytes :=
  [x0f; x00; x00; x00;
   x10; x61; x00; x01; x00; x00; x00;
   x0a; x62; x00;
   x00].


(** ["a": 1] followed by an element with the type byte 0x20, which no
    BSON element type uses. *)
Definition doc_a_then_bad : bytes :=
  [x0f; x00; x00; x00;
   x10; x61; x00; x01; x00; x00; x00;
   x20; x62; x00;
   x00].


(** Declared size 5, last byte 1. *)
Definition unterminated : bytes := [x05; x00; x00; x00; x01].


(** Declared size 0. *)
Definition size_zero : bytes := [x00; x00; x00; x00].

(** Declared size -1, then two zero bytes. *)
Definition size_minus_one : bytes := [xff; xff; xff; xff; x00; x00].

End Samples.


(** An element decoder makes progress when the position it returns is
    after the position it was given, as a decoder that reads at least the
    type byte of the element does. *)
Definition advances {Value : Type}
    (_element_to_dict :
       bytes -> Z -> Z -> CodecOptions -> outcome (string * Value * Z))
  : Prop :=
  forall data position obj_end opts name value position',
    _element_to_dict data position obj_end opts
    = Returned (name, value, position') ->
    position < position'.


(** * Properties *)

Section CacheProperties.

Context {Value Other : Type}.
Variable _element_to_dict :
  bytes -> Z -> Z -> CodecOptions -> outcome (string * Value * Z).
Variable decode : bytes -> CodecOptions -> option (outcome (gmap string Value)).
Variable cmp : gmap string Value -> Other -> Z.
Variable repr : gmap string Value -> string.

Abbreviation view := (RawBSONDocument Value).
Abbreviation exec' := (exec _element_to_dict decode cmp repr).
Abbreviation run' := (run _element_to_dict decode cmp repr).
Abbreviation states' := (states _element_to_dict decode cmp repr).

(** ** Reading [self.__inflated] *)

Lemma with_inflated_cached {A : Type} (self : view) (d : gmap string Value)
    (f : gmap string Value -> outcome A) :
  __inflated_doc self = Some d ->
  with_inflated decode self f = Some (f d, self, []).
Proof.
  intros Hc. unfold with_inflated, __inflated. rewrite Hc. reflexivity.
Qed.

Lemma with_inflated_decoded {A : Type} (self : view) (d : gmap string Value)
    (f : gmap string Value -> outcome A) :
  __inflated_doc self = None ->
  decode (__raw self) (__codec_options self) = Some (Returned d) ->
  with_inflated decode self f
  = Some (f d, set_inflated_doc self d, [FullDecode]).
Proof.
  intros Hc Hd. unfold with_inflated, __inflated. rewrite Hc, Hd. reflexivity.
Qed.

Lemma with_inflated_failed {A : Type} (self : view) (e : exn)
    (f : gmap string Value -> outcome A) :
  __inflated_doc self = None ->
  decode (__raw self) (__codec_options self) = Some (Raised e) ->
  with_inflated decode self f = Some (Raised e, self, [FullDecode]).
Proof.
  intros Hc Hd. unfold with_inflated, __inflated. rewrite Hc, Hd. reflexivity.
Qed.

(** Whatever a read of [self.__inflated] does, the view afterwards is the
    one before or the one before with its cache filled by the decoder. *)
Lemma with_inflated_post {A : Type} (self self' : view)
    (f : gmap string Value -> outcome A) (r : outcome A) (t : list event) :
  with_inflated decode self f = Some (r, self', t) ->
  (self' = self /\ (t = [] \/ t = [FullDecode]))
  \/ (exists d, __inflated_doc self = None
        /\ decode (__raw self) (__codec_options self) = Some (Returned d)
        /\ self' = set_inflated_doc self d /\ t = [FullDecode]).
Proof.
  unfold with_inflated, __inflated.
  destruct (__inflated_doc self) as [d|] eqn:Hc.
  - intros [= <- <- <-]. left. auto.
  - destruct (decode (__raw self) (__codec_options self)) as [[d|e]|] eqn:Hd;
      [ | | discriminate].
    + intros [= <- <- <-]. right. exists d. auto.
    + intros [= <- <- <-]. left. auto.
Qed.

Lemma forget_post {A : Type} (m : M (Value:=Value) A) (r : outcome unit)
    (self' : view) (t : list event) :
  forget m = Some (r, self', t) ->
  exists r', m = Some (r', self', t)
             /\ match r', r with
                | Returned _, Returned _ => True
                | Raised e', Raised e => e' = e
                | _, _ => False
                end.
Proof.
  destruct m as [[[[a|e] s] t0]|]; simpl; intros [= <- <- <-];
    eexists; (split; [reflexivity | exact I || reflexivity]).
Qed.

Lemma contains_post (self self' : view) (key : string) (r : outcome bool)
    (t : list event) :
  __contains__ decode self key = Some (r, self', t) ->
  exists r', __getitem__ decode self key = Some (r', self', t).
Proof.
  unfold __contains__.
  destruct (__getitem__ decode self key) as [[[[v|e] s] t0]|];
    [ | destruct e | ]; intros [= <- <- <-]; eauto.
Qed.

(** The scanning membership test gives the view back as it found it. *)
Lemma hasitem_frame (fuel : nat) (self self' : view) (item : string)
    (r : outcome bool) (t : list event) :
  __hasitem__ _element_to_dict decode fuel self item = Some (r, self', t) ->
  self' = self.
Proof.
  unfold __hasitem__.
  destruct (__inflated_doc self) as [d|] eqn:Hc.
  - rewrite (with_inflated_cached _ d) by exact Hc. now intros [= _ <- _].
  - destruct (hasitem_loop _ _ _ _ _) as [[r0 t0]|]; [ | discriminate].
    now intros [= _ <- _].
Qed.

(** ** One operation *)

Lemma exec_post (o : op (Value:=Value) (Other:=Other)) (self self' : view)
    (r : outcome unit) (t : list event) :
  exec' o self = Some (r, self', t) ->
  self' = self
  \/ (needs_full_decode o = true
      /\ exists d, __inflated_doc self = None
           /\ decode (__raw self) (__codec_options self) = Some (Returned d)
           /\ self' = set_inflated_doc self d /\ t = [FullDecode]).
Proof.
  destruct o; simpl; intros H.
  1-5: apply forget_post in H as (r' & H & _);
       apply with_inflated_post in H as [[-> _]|Hd]; [now left | right; auto].
  - apply forget_post in H as (r' & H & _).
    apply contains_post in H as (r'' & H).
    apply with_inflated_post in H as [[-> _]|Hd]; [now left | right; auto].
  - apply forget_post in H as (r' & H & _).
    left. eapply hasitem_frame; eauto.
  - left. destruct (items_next _ _ _) as [[[] ?] ?]; now inversion H.
  - left. now inversion H.
Qed.

Lemma exec_materialized (o : op (Value:=Value) (Other:=Other))
    (self self' : view) (d : gmap string Value) (r : outcome unit)
    (t : list event) :
  __inflated_doc self = Some d ->
  exec' o self = Some (r, self', t) ->
  self' = self.
Proof.
  intros Hc H. apply exec_post in H as [->|(_ & d' & Hn & _)]; [reflexivity|].
  congruence.
Qed.

Lemma exec_trigger_decoded (o : op (Value:=Value) (Other:=Other))
    (self : view) (d : gmap string Value) :
  __inflated_doc self = None ->
  decode (__raw self) (__codec_options self) = Some (Returned d) ->
  needs_full_decode o = true ->
  exists r, exec' o self = Some (r, set_inflated_doc self d, [FullDecode]).
Proof.
  intros Hc Hd Ho. destruct o; try discriminate Ho; simpl.
  1-5: unfold __getitem__, __iter__, __len__, __cmp__, __repr__;
       rewrite (with_inflated_decoded _ d) by assumption;
       simpl; try destruct (d !! item); eauto.
  unfold __contains__, __getitem__.
  rewrite (with_inflated_decoded _ d) by assumption.
  destruct (d !! key); simpl; eauto.
Qed.

Lemma exec_trigger_failed (o : op (Value:=Value) (Other:=Other))
    (self : view) (e : exn) :
  __inflated_doc self = None ->
  decode (__raw self) (__codec_options self) = Some (Raised e) ->
  needs_full_decode o = true ->
  exists r, exec' o self = Some (r, self, [FullDecode])
    /\ (r = Raised e
        \/ exists key k, o = Contains key /\ e = KeyError k /\ r = Returned tt).
Proof.
  intros Hc Hd Ho. destruct o; try discriminate Ho; simpl.
  1-5: unfold __getitem__, __iter__, __len__, __cmp__, __repr__;
       rewrite (with_inflated_failed _ e) by assumption; simpl; eauto.
  unfold __contains__, __getitem__.
  rewrite (with_inflated_failed _ e) by assumption.
  destruct e; simpl; eauto 10.
Qed.

(** The decoders an operation calls once the cache is filled are never the
    full decoder. *)
Lemma exec_materialized_trace (o : op (Value:=Value) (Other:=Other))
    (self self' : view) (d : gmap string Value) (r : outcome unit)
    (t : list event) :
  __inflated_doc self = Some d ->
  exec' o self = Some (r, self', t) ->
  FullDecode ∉ t.
Proof.
  intros Hc. destruct o; simpl.
  1-5: unfold __getitem__, __iter__, __len__, __cmp__, __repr__;
       rewrite (with_inflated_cached _ d) by assumption; simpl;
       try destruct (d !! item); intros [= _ _ <-]; apply not_elem_of_nil.
  - unfold __contains__, __getitem__.
    rewrite (with_inflated_cached _ d) by assumption.
    destruct (d !! key); intros [= _ _ <-]; apply not_elem_of_nil.
  - unfold __hasitem__. rewrite Hc.
    rewrite (with_inflated_cached _ d) by assumption.
    intros [= _ _ <-]; apply not_elem_of_nil.
  - assert (Hn : forall g, FullDecode ∉ (items_next _element_to_dict self g).2).
    { intros g0. unfold items_next, cache_next, scan_next.
      repeat (case_match; simpl; subst);
        rewrite ?elem_of_cons, ?elem_of_nil; intuition discriminate. }
    specialize (Hn g). destruct (items_next _ _ _) as [[[] ?] ?];
      intros [= _ _ <-]; exact Hn.
  - intros [= _ _ <-]; apply not_elem_of_nil.
Qed.

(** ** Runs *)

Lemma states_cons (o : op (Value:=Value) (Other:=Other))
    (ops : list (op (Value:=Value) (Other:=Other))) (self : view) :
  states' (o :: ops) self
  = self :: match exec' o self with
            | None => []
            | Some (_, self', _) => states' ops self'
            end.
Proof. reflexivity. Qed.

Lemma states_head (ops : list (op (Value:=Value) (Other:=Other)))
    (self : view) :
  exists l, states' ops self = self :: l.
Proof. destruct ops; simpl; eauto. Qed.

Lemma materializations_cons (a b : view) (l : list view) :
  materializations (a :: b :: l)
  = (match state_of a, state_of b with
     | Lazy, Materialized => 1
     | _, _ => 0
     end + materializations (b :: l))%nat.
Proof. reflexivity. Qed.

Lemma states_materialized (ops : list (op (Value:=Value) (Other:=Other)))
    (self : view) :
  state_of self = Materialized ->
  materializations (states' ops self) = 0%nat.
Proof.
  revert self. induction ops as [|o ops IH]; intros self Hs; [reflexivity|].
  rewrite states_cons.
  destruct (exec' o self) as [[[r self'] t]|] eqn:He; [|reflexivity].
  assert (Hd : exists d, __inflated_doc self = Some d).
  { unfold state_of in Hs. destruct (__inflated_doc self); [eauto|discriminate]. }
  destruct Hd as [d Hc].
  apply (exec_materialized _ _ _ d) in He as ->; [|exact Hc].
  specialize (IH self Hs). destruct (states_head ops self) as [l Hl].
  rewrite Hl in *. rewrite materializations_cons, Hs. exact IH.
Qed.

Lemma materializations_le_1
    (ops : list (op (Value:=Value) (Other:=Other))) (self : view) :
  (materializations (states' ops self) <= 1)%nat.
Proof.
  revert self. induction ops as [|o ops IH]; intros self; [simpl; lia|].
  rewrite states_cons.
  destruct (exec' o self) as [[[r self'] t]|] eqn:He; [|simpl; lia].
  destruct (states_head ops self') as [l Hl].
  specialize (IH self'). rewrite Hl in *. rewrite materializations_cons.
  destruct (state_of self) eqn:Hs, (state_of self') eqn:Hs'; try lia.
  rewrite <- Hl, states_materialized by exact Hs'. lia.
Qed.

Lemma run_post (self : view) (d : gmap string Value)
    (ops : list (op (Value:=Value) (Other:=Other))) :
  __inflated_doc self = None ->
  decode (__raw self) (__codec_options self) = Some (Returned d) ->
  forall s s' t,
    s = self \/ s = set_inflated_doc self d ->
    run' ops s = Some (s', t) ->
    (s' = self \/ s' = set_inflated_doc self d)
    /\ (s = set_inflated_doc self d \/ existsb needs_full_decode ops = true ->
        s' = set_inflated_doc self d).
Proof.
  intros Hc Hd. induction ops as [|o ops IH]; intros s s' t Hs; simpl.
  - intros [= <- _]. split; [exact Hs|].
    intros [->|?]; [reflexivity|discriminate].
  - destruct (exec' o s) as [[[r s1] t1]|] eqn:He; [|discriminate].
    destruct (run' ops s1) as [[s2 t2]|] eqn:Hr; [|discriminate].
    intros [= <- _].
    destruct Hs as [->| ->].
    + destruct (needs_full_decode o) eqn:Ho.
      * destruct (exec_trigger_decoded o self d Hc Hd Ho) as [r' He'].
        rewrite He' in He. injection He as <- <- <-.
        destruct (IH _ _ _ (or_intror eq_refl) Hr) as [H1 H2].
        split; [exact H1|]. intros _. apply H2. now left.
      * apply exec_post in He as [->|(Ho' & _)]; [|congruence].
        destruct (IH _ _ _ (or_introl eq_refl) Hr) as [H1 H2].
        split; [exact H1|]. simpl.
        intros [Habs|Hex]; [|apply H2; now right].
        exfalso. rewrite Habs in Hc. discriminate Hc.
    + apply (exec_materialized _ _ _ d) in He as ->; [|reflexivity].
      destruct (IH _ _ _ (or_intror eq_refl) Hr) as [H1 H2].
      split; [exact H1|]. intros _. apply H2. now left.
Qed.

Lemma lazy_no_cache (self : view) :
  state_of self = Lazy -> __inflated_doc self = None.
Proof. unfold state_of. now destruct (__inflated_doc self). Qed.

Lemma materialized_cache (self : view) :
  state_of self = Materialized -> exists d, __inflated_doc self = Some d.
Proof. unfold state_of. destruct (__inflated_doc self); [eauto|discriminate]. Qed.

(** ** The claims on the cache *)

(** C5.  When the full decoder returns the mapping [d] for the buffer of a
    Lazy view, every operation that reads the cache (item access, iteration
    over the names, length, comparison, and also [repr] and [in]) leaves the
    view with the cache [d] after one full decode, whichever comes first;
    and after any sequence of operations the view is the initial one or the
    one with cache [d], the latter as soon as the sequence holds one such
    operation.  So two views of one buffer never hold different mappings. *)
Theorem C5_same_mapping_for_every_trigger
    (self : view) (d : gmap string Value) :
  state_of self = Lazy ->
  decode (__raw self) (__codec_options self) = Some (Returned d) ->
  (forall o : op, needs_full_decode o = true ->
     exists r, exec' o self = Some (r, set_inflated_doc self d, [FullDecode]))
  /\ (forall (ops : list op) (self' : view) (t : list event),
        run' ops self = Some (self', t) ->
        (self' = self \/ self' = set_inflated_doc self d)
        /\ (forall d', __inflated_doc self' = Some d' -> d' = d)
        /\ (existsb needs_full_decode ops = true ->
            __inflated_doc self' = Some d)).
Proof.
  intros Hs Hd. apply lazy_no_cache in Hs. split.
  - intros o Ho. now apply exec_trigger_decoded.
  - intros ops self' t Hr.
    destruct (run_post self d ops Hs Hd self self' t (or_introl eq_refl) Hr)
      as [H1 H2].
    split; [exact H1|]. split.
    + intros d' Hd'. destruct H1 as [-> | ->]; [congruence|].
      simpl in Hd'. congruence.
    + intros Hex. rewrite H2 by now right. reflexivity.
Qed.

(** C6.  When the full decoder raises [e] for the buffer of a Lazy view,
    an operation that reads the cache lets [e] escape (the inherited
    membership test turns a [KeyError] into [False]) and gives back the
    very same view: no cache, nothing stored.  A second such operation
    calls the full decoder again. *)
Theorem C6_failed_decode_stays_lazy
    (self : view) (e : exn) (o1 o2 : op) :
  state_of self = Lazy ->
  decode (__raw self) (__codec_options self) = Some (Raised e) ->
  needs_full_decode o1 = true ->
  needs_full_decode o2 = true ->
  (exists r, exec' o1 self = Some (r, self, [FullDecode])
     /\ (r = Raised e
         \/ exists key k, o1 = Contains key /\ e = KeyError k
                          /\ r = Returned tt))
  /\ run' [o1; o2] self = Some (self, [FullDecode; FullDecode])
  /\ state_of self = Lazy.
Proof.
  intros Hs Hd Ho1 Ho2. pose proof (lazy_no_cache _ Hs) as Hc.
  destruct (exec_trigger_failed o1 self e Hc Hd Ho1) as (r1 & He1 & Hr1).
  destruct (exec_trigger_failed o2 self e Hc Hd Ho2) as (r2 & He2 & Hr2).
  split; [eauto|]. split; [|exact Hs].
  cbn [run]. rewrite He1, He2. reflexivity.
Qed.

(** C7.  A view is Lazy (no cache) or Materialized (a cache), never both.
    An operation on a Materialized view gives back the same view, cache
    included, and does not call the full decoder.  A step from Lazy to
    Materialized is made only by an operation that reads the cache, with
    one full decode; and along any sequence of operations there is at most
    one such step. *)
Theorem C7_materialized_is_terminal :
  (forall self : view,
     (state_of self = Lazy /\ __inflated_doc self = None)
     \/ (state_of self = Materialized
         /\ exists d, __inflated_doc self = Some d))
  /\ (forall (o : op) (self self' : view) r t,
        state_of self = Materialized ->
        exec' o self = Some (r, self', t) ->
        self' = self /\ FullDecode ∉ t)
  /\ (forall (o : op) (self self' : view) r t,
        state_of self = Lazy ->
        exec' o self = Some (r, self', t) ->
        state_of self' = Materialized ->
        needs_full_decode o = true /\ t = [FullDecode]
        /\ decode (__raw self) (__codec_options self)
           = option_map Returned (__inflated_doc self'))
  /\ (forall (ops : list op) (self : view),
        (materializations (states' ops self) <= 1)%nat).
Proof.
  split; [|split; [|split]].
  - intros self. unfold state_of. destruct (__inflated_doc self); eauto.
  - intros o self self' r t Hs He.
    destruct (materialized_cache _ Hs) as [d Hc]. split.
    + eapply exec_materialized; eauto.
    + eapply exec_materialized_trace; eauto.
  - intros o self self' r t Hs He Hs'.
    apply exec_post in He as [->|(Ho & d & _ & Hd & -> & ->)]; [congruence|].
    auto.
  - apply materializations_le_1.
Qed.

(** C10.  When the full decoder returns the mapping [d] for the buffer of a
    Lazy view and [name] is not a key of [d], item access raises
    [KeyError(name)], after one full decode, and the view it leaves is
    Materialized with cache [d]. *)
Theorem C10_getitem_missing_key
    (self : view) (d : gmap string Value) (name : string) :
  state_of self = Lazy ->
  decode (__raw self) (__codec_options self) = Some (Returned d) ->
  d !! name = None ->
  __getitem__ decode self name
  = Some (Raised (KeyError name), set_inflated_doc self d, [FullDecode])
  /\ state_of (set_inflated_doc self d) = Materialized
  /\ __inflated_doc (set_inflated_doc self d) = Some d.
Proof.
  intros Hs Hd Hn. apply lazy_no_cache in Hs. unfold __getitem__.
  rewrite (with_inflated_decoded _ d) by assumption. now rewrite Hn.
Qed.

End CacheProperties.

(** ** Slices and the header checks *)

Lemma take_1_drop {A : Type} (l : list A) (k : nat) :
  take 1 (drop k l) = match l !! k with Some x => [x] | None => [] end.
Proof.
  revert k. induction l as [|a l IH]; intros [|k]; simpl; try reflexivity.
  apply IH.
Qed.

(** Away from the declared size 0, the one-byte slice that ends at the
    declared size holds the byte that Python's indexing finds there. *)
Lemma py_slice_last_byte (b : bytes) (d : Z) :
  d <> 0 ->
  py_slice b (d - 1) d
  = match py_index b (d - 1) with Some x => [x] | None => [] end.
Proof.
  intros Hd. unfold py_slice, py_index, slice_bound.
  pose proof (Nat2Z.is_nonneg (length b)) as Hn. fold (len b) in Hn.
  destruct (Z.ltb_spec (d - 1) 0) as [H1|H1];
    destruct (Z.ltb_spec d 0) as [H2|H2]; try lia.
  - destruct (Z.ltb_spec (d - 1 + len b) 0) as [H3|H3].
    + rewrite Z.max_l, Z.max_l by lia. reflexivity.
    + rewrite (Z.max_r 0 (d - 1 + len b)), (Z.max_r 0 (d + len b)) by lia.
      destruct (Z.ltb_spec (d - 1 + len b) (d + len b)); [|lia].
      replace (d + len b - (d - 1 + len b)) with 1 by lia.
      apply take_1_drop.
  - destruct (Z.ltb_spec (d - 1) 0) as [H3|_]; [lia|].
    destruct (Z.le_gt_cases d (len b)) as [Hle|Hgt].
    + rewrite (Z.min_l (d - 1)), (Z.min_l d) by lia.
      destruct (Z.ltb_spec (d - 1) d); [|lia].
      replace (d - (d - 1)) with 1 by lia. apply take_1_drop.
    + rewrite (Z.min_r (d - 1)), (Z.min_r d) by lia.
      rewrite Z.ltb_irrefl.
      rewrite (lookup_ge_None_2 b (Z.to_nat (d - 1))); [reflexivity|].
      unfold len in Hgt. lia.
Qed.





Lemma items_header_sized (b : bytes) (d : Z) :
  _UNPACK_INT (py_slice b 0 4) = Returned d ->
  d <= len b ->
  items_header b
  = if decide (py_slice b (d - 1) d = [Byte.x00])
    then Returned (d, d - 1) else Raised (InvalidBSON "bad eoo").
Proof.
  intros Hu Hle. unfold items_header. rewrite Hu.
  destruct (Z.ltb_spec (len b) d); [lia|reflexivity].
Qed.

Lemma lazy_view_eta {Value : Type} (self : RawBSONDocument Value) :
  __inflated_doc self = None ->
  mkRawBSONDocument (__raw self) None (__codec_options self) = self.
Proof. destruct self as [b c o]; simpl. now intros ->. Qed.

(** ** The size of a mapping and the names of its keys *)







(** ** The scanner *)

Section ScannerProperties.

Context {Value Other : Type}.
Variable _element_to_dict :
  bytes -> Z -> Z -> CodecOptions -> outcome (string * Value * Z).
Variable decode : bytes -> CodecOptions -> option (outcome (gmap string Value)).
Variable cmp : gmap string Value -> Other -> Z.
Variable repr : gmap string Value -> string.

Abbreviation view := (RawBSONDocument Value).
Abbreviation next' := (items_next _element_to_dict).
Abbreviation pull' := (pull _element_to_dict).
Abbreviation consume' := (consume _element_to_dict).
Abbreviation prefix' := (decoded_prefix _element_to_dict).

Lemma items_next_created (self : view) (obj_size obj_end : Z) :
  __inflated_doc self = None ->
  items_header (__raw self) = Returned (obj_size, obj_end) ->
  next' self Created = next' self (Scanning 4 obj_size obj_end).
Proof. intros Hc Hh. simpl. now rewrite Hc, Hh. Qed.

Lemma items_next_header_error (self : view) (e : exn) :
  __inflated_doc self = None ->
  items_header (__raw self) = Raised e ->
  next' self Created = (Raise e, Exhausted, []).
Proof. intros Hc Hh. simpl. now rewrite Hc, Hh. Qed.

(** Pulling [n] times from a suspended scan decodes the [n] elements that
    follow and suspends after the last. *)
Lemma pull_scanning (n : nat) (self : view) (position obj_size obj_end : Z)
    (items : list (string * Value)) (ps : list Z) (final : Z) :
  prefix' n (__raw self) (__codec_options self) position obj_size obj_end
  = Some (items, ps, final) ->
  pull' n self (Scanning position obj_size obj_end)
  = (yields items, Scanning final obj_size obj_end, map ElementDecode ps)
  /\ length items = n /\ length ps = n.
Proof.
  revert position items ps final.
  induction n as [|n IH]; intros position items ps final; simpl.
  - intros [= <- <- <-]. auto.
  - unfold scan_next, raw.
    destruct (position <? obj_end); [|discriminate].
    destruct (_element_to_dict _ _ _ _) as [[[name value] position']|e];
      [|discriminate].
    destruct (prefix' n _ _ position' _ _) as [[[items' ps'] final']|] eqn:Hp;
      [|discriminate].
    intros [= <- <- <-].
    destruct (IH _ _ _ _ Hp) as (-> & Hl1 & Hl2). simpl.
    repeat split; congruence.
Qed.

Lemma pull_created (n : nat) (self : view) (obj_size obj_end : Z)
    (items : list (string * Value)) (ps : list Z) (final : Z) :
  __inflated_doc self = None ->
  items_header (__raw self) = Returned (obj_size, obj_end) ->
  prefix' (S n) (__raw self) (__codec_options self) 4 obj_size obj_end
  = Some (items, ps, final) ->
  pull' (S n) self Created
  = (yields items, Scanning final obj_size obj_end, map ElementDecode ps).
Proof.
  intros Hc Hh Hp. apply pull_scanning in Hp as (Hp & _).
  cbn [pull] in *. rewrite (items_next_created _ _ _ Hc Hh). exact Hp.
Qed.

(** More fuel does not change what a completed consumption returned. *)
Lemma consume_mono (fuel fuel' : nat) (self : view) (g : items_gen Value) r :
  consume' fuel self g = Some r ->
  (fuel <= fuel')%nat ->
  consume' fuel' self g = Some r.
Proof.
  revert fuel' g r. induction fuel as [|fuel IH]; intros fuel' g r;
    [discriminate|].
  intros H Hle. destruct fuel' as [|fuel']; [lia|].
  simpl in *. destruct (next' self g) as [[[name value| |e] g'] t]; auto.
  destruct (consume' fuel self g') as [r'|] eqn:Hc; [|discriminate].
  rewrite (IH fuel' g' r' Hc) by lia. exact H.
Qed.



(** *** The scanning membership test *)

Lemma hasitem_loop_skip (n fuel : nat) (self : view)
    (position obj_size obj_end : Z) (item : string)
    (items : list (string * Value)) (ps : list Z) (final : Z) :
  prefix' n (__raw self) (__codec_options self) position obj_size obj_end
  = Some (items, ps, final) ->
  Forall (fun kv => kv.1 <> item) items ->
  hasitem_loop _element_to_dict (n + fuel) self
    (Scanning position obj_size obj_end) item
  = match hasitem_loop _element_to_dict fuel self
            (Scanning final obj_size obj_end) item with
    | None => None
    | Some (r, t) => Some (r, map ElementDecode ps ++ t)
    end.
Proof.
  revert position items ps final.
  induction n as [|n IH]; intros position items ps final; simpl.
  - intros [= <- <- <-] _. now destruct (hasitem_loop _ _ _ _ _) as [[? ?]|].
  - unfold scan_next, raw.
    destruct (position <? obj_end); [|discriminate].
    destruct (_element_to_dict _ _ _ _) as [[[name value] position']|e];
      [|discriminate].
    destruct (prefix' n _ _ position' _ _) as [[[items' ps'] final']|] eqn:Hp;
      [|discriminate].
    intros [= <- <- <-] Hall. apply Forall_cons in Hall as [Hne Hall].
    simpl in Hne. destruct (decide (name = item)) as [|_]; [contradiction|].
    rewrite (IH _ _ _ _ Hp Hall).
    now destruct (hasitem_loop _ _ _ _ _) as [[? ?]|].
Qed.

Lemma hasitem_loop_created (fuel : nat) (self : view) (obj_size obj_end : Z)
    (item : string) :
  __inflated_doc self = None ->
  items_header (__raw self) = Returned (obj_size, obj_end) ->
  hasitem_loop _element_to_dict fuel self Created item
  = hasitem_loop _element_to_dict fuel self (Scanning 4 obj_size obj_end) item.
Proof.
  intros Hc Hh. destruct fuel; [reflexivity|]. cbn [hasitem_loop].
  now rewrite (items_next_created _ _ _ Hc Hh).
Qed.

(** [__hasitem__] on a view without cache stops at the first element named
    [item]: the elements after it are not decoded, nothing is cached. *)
Lemma hasitem_short_circuit (n fuel : nat) (self : view)
    (obj_size obj_end : Z) (item : string)
    (items : list (string * Value)) (ps : list Z) (final : Z)
    (value : Value) (position' : Z) :
  __inflated_doc self = None ->
  items_header (__raw self) = Returned (obj_size, obj_end) ->
  prefix' n (__raw self) (__codec_options self) 4 obj_size obj_end
  = Some (items, ps, final) ->
  Forall (fun kv => kv.1 <> item) items ->
  final < obj_end ->
  _element_to_dict (__raw self) final obj_size (__codec_options self)
  = Returned (item, value, position') ->
  (n < fuel)%nat ->
  __hasitem__ _element_to_dict decode fuel self item
  = Some (Returned true, self, map ElementDecode (ps ++ [final])).
Proof.
  intros Hc Hh Hp Hall Hlt Hd Hf. unfold __hasitem__. rewrite Hc.
  rewrite (hasitem_loop_created _ _ _ _ _ Hc Hh).
  replace fuel with (n + S (fuel - S n))%nat by lia.
  rewrite (hasitem_loop_skip _ _ _ _ _ _ _ _ _ _ Hp Hall).
  cbn [hasitem_loop items_next]. unfold scan_next, raw.
  destruct (Z.ltb_spec final obj_end); [|lia]. rewrite Hd.
  destruct (decide (item = item)); [|contradiction].
  now rewrite map_app.
Qed.

(** [__hasitem__] on a view without cache answers [False] when the scan
    reaches the end without a match, and caches nothing. *)
Lemma hasitem_no_match (n fuel : nat) (self : view)
    (obj_size obj_end : Z) (item : string)
    (items : list (string * Value)) (ps : list Z) (final : Z) :
  __inflated_doc self = None ->
  items_header (__raw self) = Returned (obj_size, obj_end) ->
  prefix' n (__raw self) (__codec_options self) 4 obj_size obj_end
  = Some (items, ps, final) ->
  Forall (fun kv => kv.1 <> item) items ->
  obj_end <= final ->
  (n < fuel)%nat ->
  __hasitem__ _element_to_dict decode fuel self item
  = Some (Returned false, self, map ElementDecode ps).
Proof.
  intros Hc Hh Hp Hall Hge Hf. unfold __hasitem__. rewrite Hc.
  rewrite (hasitem_loop_created _ _ _ _ _ Hc Hh).
  replace fuel with (n + S (fuel - S n))%nat by lia.
  rewrite (hasitem_loop_skip _ _ _ _ _ _ _ _ _ _ Hp Hall).
  cbn [hasitem_loop items_next]. unfold scan_next.
  destruct (Z.ltb_spec final obj_end); [lia|].
  now rewrite app_nil_r.
Qed.

(** [__hasitem__] on a view with a cache looks the name up there. *)
Lemma hasitem_cached (fuel : nat) (self : view) (d : gmap string Value)
    (item : string) :
  __inflated_doc self = Some d ->
  __hasitem__ _element_to_dict decode fuel self item
  = Some (Returned (bool_decide (is_Some (d !! item))), self, []).
Proof.
  intros Hc. unfold __hasitem__, with_inflated, __inflated. now rewrite Hc.
Qed.

(** The membership test that [in] runs fills the cache of a Lazy view. *)
Lemma contains_materializes (self : view) (d : gmap string Value)
    (key : string) :
  __inflated_doc self = None ->
  decode (__raw self) (__codec_options self) = Some (Returned d) ->
  __contains__ decode self key
  = Some (Returned (bool_decide (is_Some (d !! key))),
          set_inflated_doc self d, [FullDecode]).
Proof.
  intros Hc Hd. unfold __contains__, __getitem__, with_inflated, __inflated.
  rewrite Hc, Hd. destruct (d !! key) as [v|] eqn:Hk.
  - rewrite bool_decide_eq_true_2 by eauto. reflexivity.
  - rewrite bool_decide_eq_false_2 by (intros [? ?]; discriminate).
    reflexivity.
Qed.

(** ** The claims on the scanner *)



(** C4, amended.  Take a Lazy view whose buffer declares a size [d] that is
    not 0 and not greater than the length of the buffer.  If the byte at
    index [d - 1] (counted from the end when [d] is negative) is missing or
    not zero, the first pull on the generator raises InvalidBSON "bad eoo"
    before any element is decoded.  If that byte is zero, the header checks
    raise nothing and the first pull goes on to the scan from offset 4. *)
Theorem C4_bad_terminator (self : view) (d : Z) :
  state_of self = Lazy ->
  _UNPACK_INT (py_slice (__raw self) 0 4) = Returned d ->
  d <= len (__raw self) ->
  d <> 0 ->
  (py_index (__raw self) (d - 1) <> Some Byte.x00 ->
     items_header (__raw self) = Raised (InvalidBSON "bad eoo")
     /\ next' self (_items self)
        = (Raise (InvalidBSON "bad eoo"), Exhausted, []))
  /\ (py_index (__raw self) (d - 1) = Some Byte.x00 ->
      items_header (__raw self) = Returned (d, d - 1)
      /\ next' self (_items self)
         = scan_next _element_to_dict self 4 d (d - 1)).
Proof.
  intros Hs Hu Hle Hd. unfold state_of in Hs.
  destruct (__inflated_doc self) eqn:Hc; [discriminate|].
  pose proof (items_header_sized _ _ Hu Hle) as Hh.
  rewrite (py_slice_last_byte _ _ Hd) in Hh. split; intros Hb.
  - assert (Hr : items_header (__raw self) = Raised (InvalidBSON "bad eoo")).
    { rewrite Hh. destruct (py_index (__raw self) (d - 1)) as [x|];
        (destruct (decide _) as [Heq|]; [|reflexivity]);
        [injection Heq as ->; contradiction|discriminate]. }
    split; [exact Hr|]. now apply items_next_header_error.
  - rewrite Hb in Hh. destruct (decide _); [|contradiction].
    split; [exact Hh|]. unfold _items. cbn [items_next]. now rewrite Hc, Hh.
Qed.

(** C8.  Take a Lazy view whose buffer passes the header checks and whose
    first [n] elements decode, whatever comes after them.  Pulling [n]
    times from a fresh generator yields exactly those [n] pairs and no
    error, calls the element decoder exactly [n] times, at their offsets,
    and leaves the generator suspended after the [n]-th element.  A pull on
    a generator never changes the view: it stays Lazy. *)
Theorem C8_partial_iteration_is_lazy
    (n : nat) (self : view) (obj_size obj_end : Z)
    (items : list (string * Value)) (ps : list Z) (final : Z) :
  state_of self = Lazy ->
  items_header (__raw self) = Returned (obj_size, obj_end) ->
  prefix' n (__raw self) (__codec_options self) 4 obj_size obj_end
  = Some (items, ps, final) ->
  pull' n self (_items self)
  = (yields items,
     match n with
     | O => Created
     | S _ => Scanning final obj_size obj_end
     end,
     map ElementDecode ps)
  /\ length items = n
  /\ length (map ElementDecode ps) = n
  /\ (forall r, r ∈ yields items -> exists name value, r = Yield name value)
  /\ (forall g r self' t,
        exec _element_to_dict decode cmp repr (ItemsNext g) self
        = Some (r, self', t) ->
        self' = self /\ state_of self' = Lazy).
Proof.
  intros Hs Hh Hp. pose proof Hs as Hc. unfold state_of in Hc.
  destruct (__inflated_doc self) eqn:Hc'; [discriminate|]. clear Hc.
  destruct (pull_scanning _ _ _ _ _ _ _ _ Hp) as (_ & Hl1 & Hl2).
  split; [|split; [exact Hl1|split; [now rewrite length_map|split]]].
  - destruct n as [|n].
    + simpl in Hp. injection Hp as <- <- <-. reflexivity.
    + now apply pull_created.
  - intros r Hr. unfold yields in Hr. apply list_elem_of_fmap in Hr.
    destruct Hr as ([name value] & -> & _). eauto.
  - intros g r self' t He.
    apply exec_post in He as [->|(Ho & _)]; [auto|discriminate].
Qed.

End ScannerProperties.

(** A scan whose end offset is not after offset 4 yields nothing. *)
Lemma empty_scan {Value : Type}
    (_element_to_dict :
       bytes -> Z -> Z -> CodecOptions -> outcome (string * Value * Z))
    (self : RawBSONDocument Value) (obj_size obj_end : Z) :
  __inflated_doc self = None ->
  items_header (__raw self) = Returned (obj_size, obj_end) ->
  obj_end <= 4 ->
  items_next _element_to_dict self (_items self)
  = (StopIteration, Exhausted, []).
Proof.
  intros Hc Hh Hle. unfold _items. cbn [items_next]. rewrite Hc, Hh.
  unfold scan_next. destruct (Z.ltb_spec 4 obj_end); [lia|reflexivity].
Qed.

(** C9.  The six bytes ff ff ff ff 00 00 declare the size -1.  The size
    check lets it pass, the terminator check reads the slice [-2:-1], the
    zero byte at offset 4, and the loop from offset 4 to the end offset -2
    does not run: whatever the element decoder, the first pull ends the
    iteration without an error and without a decoder call, and the scan
    fully consumed is the empty sequence. *)
Theorem C9_negative_size_scans_empty :
  exists (raw : bytes) (d : Z),
    _UNPACK_INT (py_slice raw 0 4) = Returned d
    /\ d < 0
    /\ (len raw <? d) = false
    /\ py_slice raw (d - 1) d = [Byte.x00]
    /\ items_header raw = Returned (d, d - 1)
    /\ forall (Value : Type)
         (_element_to_dict :
            bytes -> Z -> Z -> CodecOptions -> outcome (string * Value * Z))
         (opts : CodecOptions),
         let self := __init__ raw opts in
         items_next _element_to_dict self (_items self)
         = (StopIteration, Exhausted, [])
         /\ consume _element_to_dict 1 self (_items self)
            = Some (Returned [], []).
Proof.
  exists Samples.size_minus_one, (-1).
  do 5 (split; [reflexivity || lia|]).
  intros V ed co self.
  assert (Hn : items_next ed self (_items self) = (StopIteration, Exhausted, [])).
  { apply (empty_scan ed self (-1) (-2)); [reflexivity|reflexivity|lia]. }
  split; [exact Hn|]. unfold _items in *. cbn [consume]. now rewrite Hn.
Qed.

(** ** The model on concrete buffers *)

Section Concrete.

Import Samples.

Abbreviation sview := (RawBSONDocument bson_value).
Abbreviation a_b := (dict_of_items [("a", Int32 1); ("b", Null)]).

(** C1.  On the buffer of [{"a": 1, "b": None}] the method [__hasitem__]
    does what the claim says of the membership test: it answers True after
    decoding the first element only and leaves the view Lazy.  But
    ["a" in view] does not run it: the class has no [__contains__] of its
    own, so the one inherited from [collections.Mapping] runs, which reads
    [self["a"]]; the whole buffer is decoded and the view is left
    Materialized. *)
Theorem C1_membership_fills_the_cache :
  let self : sview := __init__ doc_a_b DEFAULT_CODEC_OPTIONS in
  state_of self = Lazy
  /\ __hasitem__ sample_element_to_dict sample_decode 16 self "a"
     = Some (Returned true, self, [ElementDecode 4])
  /\ __contains__ sample_decode self "a"
     = Some (Returned true, set_inflated_doc self a_b, [FullDecode])
  /\ state_of (set_inflated_doc self a_b) = Materialized.
Proof.
  intros self. split; [reflexivity|]. split; [|split; [|reflexivity]].
  - apply (hasitem_short_circuit sample_element_to_dict sample_decode
             0 16 self 15 14 "a" [] [] 4 (Int32 1) 11);
      first [reflexivity | lia | constructor].
  - rewrite (contains_materializes sample_decode self a_b);
      [|reflexivity|vm_compute; reflexivity].
    vm_compute. reflexivity.
Qed.



(** C4, as stated, fails on the four bytes 00 00 00 00: the declared size 0
    passes the size check, the byte at index -1 is the last byte of the
    buffer and is zero, and yet the slice [-1:0] is empty and the first
    pull raises "bad eoo". *)
Lemma C4_counterexample :
  let self : sview := __init__ size_zero DEFAULT_CODEC_OPTIONS in
  _UNPACK_INT (py_slice (__raw self) 0 4) = Returned 0
  /\ 0 <= len (__raw self)
  /\ py_index (__raw self) (0 - 1) = Some Byte.x00
  /\ py_slice (__raw self) (0 - 1) 0 = []
  /\ items_next sample_element_to_dict self (_items self)
     = (Raise (InvalidBSON "bad eoo"), Exhausted, []).
Proof. vm_compute. repeat split; discriminate. Qed.



Lemma C4_witness :
  let self : sview := __init__ unterminated DEFAULT_CODEC_OPTIONS in
  items_header (__raw self) = Raised (InvalidBSON "bad eoo")
  /\ items_next sample_element_to_dict self (_items self)
     = (Raise (InvalidBSON "bad eoo"), Exhausted, []).
Proof.
  apply (C4_bad_terminator sample_element_to_dict
           (__init__ unterminated DEFAULT_CODEC_OPTIONS) 5).
  - reflexivity.
  - reflexivity.
  - vm_compute; discriminate.
  - lia.
  - vm_compute; discriminate.
Defined.

Lemma C5_witness :
  let self : sview := __init__ doc_a_b DEFAULT_CODEC_OPTIONS in
  (forall o : op, needs_full_decode o = true ->
     exists r,
       exec sample_element_to_dict sample_decode sample_cmp sample_repr
            o self
       = Some (r, set_inflated_doc self a_b, [FullDecode]))
  /\ (forall (ops : list op) (self' : sview) (t : list event),
        run sample_element_to_dict sample_decode sample_cmp sample_repr
            ops self = Some (self', t) ->
        (self' = self \/ self' = set_inflated_doc self a_b)
        /\ (forall d', __inflated_doc self' = Some d' -> d' = a_b)
        /\ (existsb needs_full_decode ops = true ->
            __inflated_doc self' = Some a_b)).
Proof.
  apply (C5_same_mapping_for_every_trigger sample_element_to_dict
           sample_decode sample_cmp sample_repr
           (__init__ doc_a_b DEFAULT_CODEC_OPTIONS) a_b).
  - reflexivity.
  - vm_compute; reflexivity.
Defined.

Lemma C6_witness :
  let self : sview := __init__ doc_a_then_bad DEFAULT_CODEC_OPTIONS in
  run sample_element_to_dict sample_decode sample_cmp sample_repr
      [Len; Getitem "a"] self
  = Some (self, [FullDecode; FullDecode])
  /\ state_of self = Lazy.
Proof.
  apply (C6_failed_decode_stays_lazy sample_element_to_dict sample_decode
           sample_cmp sample_repr
           (__init__ doc_a_then_bad DEFAULT_CODEC_OPTIONS)
           (DecoderError "unknown element type") Len (Getitem "a")).
  - reflexivity.
  - vm_compute; reflexivity.
  - reflexivity.
  - reflexivity.
Defined.

Lemma C8_witness :
  let self : sview := __init__ doc_a_then_bad DEFAULT_CODEC_OPTIONS in
  pull sample_element_to_dict 1 self (_items self)
  = ([Yield "a" (Int32 1)], Scanning 11 15 14, [ElementDecode 4]).
Proof.
  apply (C8_partial_iteration_is_lazy sample_element_to_dict sample_decode
           sample_cmp sample_repr 1
           (__init__ doc_a_then_bad DEFAULT_CODEC_OPTIONS) 15 14
           [("a", Int32 1)] [4] 11).
  - reflexivity.
  - vm_compute; reflexivity.
  - vm_compute; reflexivity.
Defined.

Lemma C10_witness :
  let self : sview := __init__ doc_a_b DEFAULT_CODEC_OPTIONS in
  __getitem__ sample_decode self "c"
  = Some (Raised (KeyError "c"), set_inflated_doc self a_b, [FullDecode])
  /\ state_of (set_inflated_doc self a_b) = Materialized
  /\ __inflated_doc (set_inflated_doc self a_b) = Some a_b.
Proof.
  apply (C10_getitem_missing_key sample_decode
           (__init__ doc_a_b DEFAULT_CODEC_OPTIONS) a_b "c").
  - reflexivity.
  - vm_compute; reflexivity.
  - vm_compute; reflexivity.
Defined.

End Concrete.

(** * Further properties of the view and of the scanner *)

Lemma py_slice_short (b : bytes) :
  len b < 4 -> py_slice b 0 4 = b.
Proof.
  intros Hlt. unfold py_slice, slice_bound. simpl.
  pose proof (Nat2Z.is_nonneg (length b)) as Hn. fold (len b) in Hn.
  rewrite Z.min_l, Z.min_r by lia.
  destruct (Z.ltb_spec 0 (len b)) as [Hp|Hz].
  - rewrite Z.sub_0_r. unfold len. rewrite Nat2Z.id, drop_0.
    apply take_ge. lia.
  - destruct b; [reflexivity|]. unfold len in Hz. simpl in Hz. lia.
Qed.

Lemma unpack_int_short (b : bytes) :
  len b < 4 -> _UNPACK_INT b = Raised struct_error.
Proof.
  unfold len. destruct b as [|? [|? [|? [|? [|? ?]]]]]; simpl; intros H;
    try reflexivity; lia.
Qed.

Lemma items_header_short (b : bytes) :
  len b < 4 -> items_header b = Raised struct_error.
Proof.
  intros Hlt. unfold items_header.
  now rewrite (py_slice_short _ Hlt), (unpack_int_short _ Hlt).
Qed.

(** What the header checks have established when they pass. *)
Lemma items_header_returned (b : bytes) (obj_size obj_end : Z) :
  items_header b = Returned (obj_size, obj_end) ->
  _UNPACK_INT (py_slice b 0 4) = Returned obj_size
  /\ obj_end = obj_size - 1
  /\ obj_size <= len b
  /\ py_slice b obj_end obj_size = [Byte.x00].
Proof.
  unfold items_header.
  destruct (_UNPACK_INT (py_slice b 0 4)) as [d|e]; [|discriminate].
  destruct (Z.ltb_spec (len b) d); [discriminate|].
  destruct (decide _) as [Heq|]; [|discriminate].
  intros [= <- <-]. auto.
Qed.

Section FurtherProperties.

Context {Value Other : Type}.
Variable _element_to_dict :
  bytes -> Z -> Z -> CodecOptions -> outcome (string * Value * Z).
Variable decode : bytes -> CodecOptions -> option (outcome (gmap string Value)).
Variable cmp : gmap string Value -> Other -> Z.
Variable repr : gmap string Value -> string.

Abbreviation view := (RawBSONDocument Value).
Abbreviation next' := (items_next _element_to_dict).
Abbreviation pull' := (pull _element_to_dict).
Abbreviation consume' := (consume _element_to_dict).
Abbreviation hasitem' := (__hasitem__ _element_to_dict decode).
Abbreviation exec' := (exec _element_to_dict decode cmp repr).
Abbreviation run' := (run _element_to_dict decode cmp repr).

(** X1.  A view over fewer than four bytes is built without complaint; the
    first pull on its scan raises [struct.error], not InvalidBSON, before
    any element is decoded, and so does the scanning membership test, which
    leaves the view as it was. *)
Theorem X1_short_buffer_struct_error
    (self : view) (fuel : nat) (item : string) :
  state_of self = Lazy ->
  len (__raw self) < 4 ->
  (0 < fuel)%nat ->
  next' self (_items self) = (Raise struct_error, Exhausted, [])
  /\ consume' fuel self (_items self) = Some (Raised struct_error, [])
  /\ hasitem' fuel self item = Some (Raised struct_error, self, []).
Proof.
  intros Hs Hlt Hf. apply lazy_no_cache in Hs.
  pose proof (items_header_short _ Hlt) as Hh.
  pose proof (items_next_header_error _element_to_dict self _ Hs Hh) as Hn.
  destruct fuel as [|fuel]; [lia|]. unfold _items, __hasitem__.
  cbn [consume hasitem_loop]. now rewrite Hs, Hn.
Qed.

(** *** Where the element decoder is called *)




(** *** What a run keeps *)

Lemma run_keeps_buffer (ops : list (op (Value:=Value) (Other:=Other)))
    (self self' : view) (t : list event) :
  run' ops self = Some (self', t) ->
  __raw self' = __raw self /\ __codec_options self' = __codec_options self.
Proof.
  revert self t. induction ops as [|o ops IH]; intros self t; cbn [run].
  - intros [= <- _]. auto.
  - destruct (exec' o self) as [[[r s1] t1]|] eqn:He; [|discriminate].
    destruct (run' ops s1) as [[s2 t2]|] eqn:Hr; [|discriminate].
    intros [= <- _]. destruct (IH _ _ Hr) as [-> ->].
    apply exec_post in He as [->|(_ & d & _ & _ & -> & _)]; auto.
Qed.

(** X3.  After any sequence of operations on a view built from the bytes
    [bson_bytes] and the options [codec_options], the view still holds
    exactly those bytes, and its codec options are the caller's time-zone
    and UUID settings with [dict] as document class, whatever document
    class the caller asked for. *)
Theorem X3_buffer_and_options_are_kept
    (bson_bytes : bytes) (codec_options : CodecOptions)
    (ops : list op) (self' : view) (t : list event) :
  run' ops (__init__ bson_bytes codec_options) = Some (self', t) ->
  raw self' = bson_bytes
  /\ document_class (__codec_options self') = dict_class
  /\ tz_aware (__codec_options self') = tz_aware codec_options
  /\ uuid_representation (__codec_options self')
     = uuid_representation codec_options.
Proof.
  intros Hr. apply run_keeps_buffer in Hr as [Hb Ho].
  unfold raw. rewrite Hb, Ho. auto.
Qed.

(** *** The end of an iteration *)

Lemma pull_exhausted (n : nat) (self : view) :
  pull' n self Exhausted = (replicate n StopIteration, Exhausted, []).
Proof.
  induction n as [|n IH]; [reflexivity|]. cbn [pull items_next].
  now rewrite IH.
Qed.

(** X4.  Once a pull on a scan has raised an error or signalled the end,
    the generator is finished: every further pull signals the end of the
    iteration and calls no decoder.  A scan that failed on one element does
    not resume with the elements after it. *)
Theorem X4_finished_generator_stays_finished
    (self : view) (g g' : items_gen Value) (r : pulled Value)
    (t : list event) (n : nat) :
  next' self g = (r, g', t) ->
  (forall name value, r <> Yield name value) ->
  g' = Exhausted
  /\ pull' n self g' = (replicate n StopIteration, Exhausted, []).
Proof.
  intros Hn Hr.
  assert (Hg : g' = Exhausted).
  { destruct g as [|rest|position s e|]; cbn [items_next] in Hn.
    - destruct (__inflated_doc self) as [d|].
      + destruct (map_to_list d) as [|[name value] rest]; cbn in Hn;
          injection Hn as <- <- <-; [reflexivity|].
        now destruct (Hr name value).
      + destruct (items_header (__raw self)) as [[s e]|err];
          [|now injection Hn as <- <- <-].
        unfold scan_next in Hn. destruct (4 <? e);
          [|now injection Hn as <- <- <-].
        destruct (_element_to_dict _ _ _ _) as [[[name value] p']|err];
          injection Hn as <- <- <-; [|reflexivity].
        now destruct (Hr name value).
    - destruct rest as [|[name value] rest]; cbn in Hn;
        injection Hn as <- <- <-; [reflexivity|].
      now destruct (Hr name value).
    - unfold scan_next in Hn. destruct (position <? e);
        [|now injection Hn as <- <- <-].
      destruct (_element_to_dict _ _ _ _) as [[[name value] p']|err];
        injection Hn as <- <- <-; [|reflexivity].
      now destruct (Hr name value).
    - now injection Hn as <- <- <-. }
  split; [exact Hg|]. rewrite Hg. apply pull_exhausted.
Qed.

(** X5.  A buffer that passes the header checks with a declared size of 5
    or less, any negative size included, has no room for an element: the
    scan of a Lazy view over it is empty and calls no decoder, and the
    scanning membership test answers False for every name. *)
Theorem X5_small_declared_size_scans_empty
    (self : view) (obj_size obj_end : Z) (fuel : nat) (item : string) :
  state_of self = Lazy ->
  items_header (__raw self) = Returned (obj_size, obj_end) ->
  obj_size <= 5 ->
  (0 < fuel)%nat ->
  consume' fuel self (_items self) = Some (Returned [], [])
  /\ hasitem' fuel self item = Some (Returned false, self, []).
Proof.
  intros Hs Hh Hle Hf. apply lazy_no_cache in Hs.
  destruct (items_header_returned _ _ _ Hh) as (_ & He & _).
  assert (Hn : next' self Created = (StopIteration, Exhausted, [])).
  { apply (empty_scan _element_to_dict self obj_size obj_end); auto. lia. }
  destruct fuel as [|fuel]; [lia|]. unfold _items, __hasitem__.
  cbn [consume hasitem_loop]. now rewrite Hs, Hn.
Qed.

(** *** Scanning a view that has a cache *)

Lemma consume_from_cache (self : view) (rest : list (string * Value))
    (fuel : nat) :
  (length rest < fuel)%nat ->
  consume' fuel self (FromCache rest) = Some (Returned rest, []).
Proof.
  revert fuel. induction rest as [|[name value] rest IH]; intros fuel Hf;
    (destruct fuel as [|fuel]; [simpl in Hf; lia|]); cbn [consume items_next].
  - reflexivity.
  - cbn [cache_next]. rewrite IH by (simpl in Hf; lia). reflexivity.
Qed.

(** X6.  On a view that has a cache, the scan does not read the buffer: it
    yields the entries of the cached dict, in the order in which [iter]
    gives their names, without a decoder call and without an error, and
    their number is what [len] returns. *)
Theorem X6_scan_of_a_materialized_view
    (self : view) (d : gmap string Value) (fuel : nat) :
  __inflated_doc self = Some d ->
  (size d < fuel)%nat ->
  consume' fuel self (_items self) = Some (Returned (map_to_list d), [])
  /\ __iter__ decode self = Some (Returned (map_to_list d).*1, self, [])
  /\ __len__ decode self
     = Some (Returned (Z.of_nat (length (map_to_list d))), self, []).
Proof.
  intros Hc Hf. split; [|split].
  - rewrite <- length_map_to_list in Hf.
    pose proof (consume_from_cache self (map_to_list d) fuel Hf) as H.
    destruct fuel as [|fuel]; [lia|]. unfold _items.
    cbn [consume items_next] in *. now rewrite Hc.
  - unfold __iter__. now rewrite (with_inflated_cached _ _ d).
  - unfold __len__. rewrite (with_inflated_cached _ _ d) by exact Hc.
    now rewrite length_map_to_list.
Qed.

(** *** Reading twice *)

(** X7.  Item access is idempotent: whatever a first [self[item]] returned
    or raised, a second one on the view it left returns or raises the same
    and leaves the same view; and when the view has a cache by then, the
    second access calls no decoder. *)
Theorem X7_getitem_twice
    (self self' : view) (item : string) (r : outcome Value)
    (t : list event) :
  __getitem__ decode self item = Some (r, self', t) ->
  exists t',
    __getitem__ decode self' item = Some (r, self', t')
    /\ (state_of self' = Materialized -> t' = []).
Proof.
  unfold __getitem__. intros H.
  destruct (with_inflated_post decode _ _ _ _ _ H)
    as [[-> Ht]|(d & Hc & Hd & -> & ->)].
  - exists t. split; [exact H|]. intros Hs.
    destruct (materialized_cache _ Hs) as [d Hc].
    rewrite (with_inflated_cached _ _ d) in H by exact Hc.
    now injection H as _ <-.
  - exists []. split; [|reflexivity].
    rewrite (with_inflated_decoded _ _ d) in H by assumption.
    injection H as <-. now rewrite (with_inflated_cached _ _ d).
Qed.

(** X8.  The mapping operations agree with one another.  When [iter]
    returns the names [names] and leaves the view [self'], then on [self']
    the names are pairwise distinct, [len] is their number, item access
    returns a value for each of them and raises [KeyError] for every other
    name, and [in] answers True exactly for them; none of this calls a
    decoder or changes the view again. *)
Theorem X8_mapping_operations_agree
    (self self' : view) (names : list string) (t : list event) :
  __iter__ decode self = Some (Returned names, self', t) ->
  NoDup names
  /\ __len__ decode self'
     = Some (Returned (Z.of_nat (length names)), self', [])
  /\ (forall key, key ∈ names ->
        exists v, __getitem__ decode self' key
                  = Some (Returned v, self', [])
                  /\ __contains__ decode self' key
                     = Some (Returned true, self', []))
  /\ (forall key, key ∉ names ->
        __getitem__ decode self' key = Some (Raised (KeyError key), self', [])
        /\ __contains__ decode self' key = Some (Returned false, self', [])).
Proof.
  intros H.
  assert (Hd : exists d, __inflated_doc self' = Some d
                         /\ names = (map_to_list d).*1).
  { unfold __iter__, with_inflated, __inflated in H.
    destruct (__inflated_doc self) as [d|] eqn:Hc.
    - injection H as <- <- _. eauto.
    - destruct (decode _ _) as [[d|e]|]; try discriminate.
      injection H as <- <- _. eauto. }
  destruct Hd as (d & Hc & ->).
  assert (Hin : forall key, key ∈ (map_to_list d).*1 <-> is_Some (d !! key)).
  { intros key. rewrite list_elem_of_fmap. split.
    - intros ([k v] & -> & Hkv). apply elem_of_map_to_list in Hkv. eauto.
    - intros [v Hv]. exists (key, v). split; [reflexivity|].
      now apply elem_of_map_to_list. }
  split; [apply NoDup_fst_map_to_list|]. split; [|split].
  - unfold __len__. rewrite (with_inflated_cached _ _ d) by exact Hc.
    now rewrite length_fmap, length_map_to_list.
  - intros key Hk. apply Hin in Hk as [v Hv]. exists v.
    unfold __contains__, __getitem__.
    rewrite (with_inflated_cached _ _ d) by exact Hc. now rewrite Hv.
  - intros key Hk.
    assert (Hv : d !! key = None).
    { destruct (d !! key) eqn:Hv; [|reflexivity].
      exfalso. apply Hk, Hin. eauto. }
    unfold __contains__, __getitem__.
    rewrite (with_inflated_cached _ _ d) by exact Hc. now rewrite Hv.
Qed.

(** *** The scanning membership test *)

(** X9.  The scanning membership test stops at the first element named
    [item].  On a Lazy view whose buffer passes the header checks and whose
    first [n] elements decode and bear other names, if the next element
    lies before the terminator and decodes with the name [item], then
    [__hasitem__] returns True after exactly [n + 1] decoder calls, at the
    offsets of those elements, whatever bytes follow, and it leaves the
    view as it was, without a cache. *)
Theorem X9_hasitem_stops_at_first_match
    (n fuel : nat) (self : view) (obj_size obj_end : Z) (item : string)
    (items : list (string * Value)) (ps : list Z) (final : Z)
    (value : Value) (position' : Z) :
  state_of self = Lazy ->
  items_header (__raw self) = Returned (obj_size, obj_end) ->
  decoded_prefix _element_to_dict n (__raw self) (__codec_options self)
    4 obj_size obj_end = Some (items, ps, final) ->
  Forall (fun kv => kv.1 <> item) items ->
  final < obj_end ->
  _element_to_dict (__raw self) final obj_size (__codec_options self)
  = Returned (item, value, position') ->
  (n < fuel)%nat ->
  hasitem' fuel self item
  = Some (Returned true, self, map ElementDecode (ps ++ [final]))
  /\ length (map ElementDecode (ps ++ [final])) = S n
  /\ state_of self = Lazy.
Proof.
  intros Hs Hh Hp Hall Hlt Hd Hf. pose proof (lazy_no_cache _ Hs) as Hc.
  split; [|split; [|exact Hs]].
  - eapply hasitem_short_circuit; eauto.
  - destruct (pull_scanning _ _ _ _ _ _ _ _ _ Hp) as (_ & _ & Hl).
    rewrite length_map, length_app, Hl. simpl. lia.
Qed.

Lemma hasitem_loop_consume (fuel : nat) (self : view) (g : items_gen Value)
    (item : string) (items : list (string * Value)) (t : list event) :
  consume' fuel self g = Some (Returned items, t) ->
  exists t',
    hasitem_loop _element_to_dict fuel self g item
    = Some (Returned (bool_decide (item ∈ items.*1)), t')
    /\ (length t' <= length t)%nat.
Proof.
  revert g items t. induction fuel as [|fuel IH]; intros g items t;
    [discriminate|].
  cbn [consume hasitem_loop].
  destruct (next' self g) as [[[name value| |e] g'] t1]; [| |discriminate].
  - destruct (consume' fuel self g') as [[[items'|e] t2]|] eqn:Hc;
      try discriminate.
    intros [= <- <-]. destruct (decide (name = item)) as [->|Hne].
    + exists t1. split.
      * rewrite bool_decide_eq_true_2; [reflexivity|]. simpl. left.
      * rewrite length_app. lia.
    + destruct (IH _ _ _ Hc) as (t' & -> & Hl). exists (t1 ++ t'). split.
      * do 3 f_equal. apply bool_decide_ext. simpl.
        rewrite elem_of_cons. intuition congruence.
      * rewrite !length_app. lia.
  - intros [= <- <-]. exists t1. split; [|lia].
    rewrite bool_decide_eq_false_2; [reflexivity|]. simpl.
    apply not_elem_of_nil.
Qed.

(** X10.  When the scan of a view, fully consumed, returns the pairs
    [items] without error, the scanning membership test on that view
    answers True exactly for the names among them, leaves the view as it
    was and calls the element decoder no more often than the full scan
    did.  This holds for a Lazy view and for one with a cache. *)
Theorem X10_hasitem_agrees_with_the_scan
    (fuel : nat) (self : view) (item : string)
    (items : list (string * Value)) (t : list event) :
  consume' fuel self (_items self) = Some (Returned items, t) ->
  exists t',
    hasitem' fuel self item
    = Some (Returned (bool_decide (item ∈ items.*1)), self, t')
    /\ (length t' <= length t)%nat.
Proof.
  intros Hcons. unfold __hasitem__.
  destruct (__inflated_doc self) as [d|] eqn:Hc.
  - exists []. split; [|simpl; lia].
    rewrite (with_inflated_cached _ _ d) by exact Hc.
    assert (Hitems : items = map_to_list d).
    { unfold _items in Hcons.
      assert (H1 : consume' (fuel + S (size d)) self Created
                   = Some (Returned items, t))
        by (apply (consume_mono _ fuel); [exact Hcons|lia]).
      assert (H2 : consume' (fuel + S (size d)) self Created
                   = Some (Returned (map_to_list d), [])).
      { pose proof (consume_from_cache self (map_to_list d)
                      (fuel + S (size d))) as H.
        rewrite length_map_to_list in H.
        replace (fuel + S (size d))%nat with (S (fuel + size d)) in * by lia.
        cbn [consume items_next] in *. rewrite Hc. apply H. lia. }
      rewrite H2 in H1. now injection H1 as <- _. }
    subst items. do 4 f_equal. apply bool_decide_ext.
    rewrite list_elem_of_fmap. split.
    + intros [v Hv]. exists (item, v). split; [reflexivity|].
      now apply elem_of_map_to_list.
    + intros ([k v] & -> & Hkv). apply elem_of_map_to_list in Hkv. eauto.
  - destruct (hasitem_loop_consume _ _ _ item _ _ Hcons) as (t' & Ht' & Hl).
    unfold _items in Ht'. rewrite Ht'. eauto.
Qed.

(** *** Termination *)

Lemma consume_scanning_terminates (fuel : nat) (self : view)
    (position obj_size obj_end : Z) :
  advances _element_to_dict ->
  (Z.to_nat (obj_end - position) < fuel)%nat ->
  exists r t,
    consume' fuel self (Scanning position obj_size obj_end) = Some (r, t)
    /\ forall items, r = Returned items ->
         Z.of_nat (length items) <= Z.max 0 (obj_end - position).
Proof.
  intros Hadv. revert position.
  induction fuel as [|fuel IH]; intros position Hf; [lia|].
  cbn [consume items_next]. unfold scan_next.
  destruct (Z.ltb_spec position obj_end) as [Hlt|Hge].
  - destruct (_element_to_dict _ _ _ _) as [[[name value] position']|e] eqn:Hd.
    + apply Hadv in Hd.
      destruct (IH position') as (r & t & -> & Hb); [lia|].
      destruct r as [items|e].
      * eexists _, _. split; [reflexivity|].
        intros items' [= <-]. specialize (Hb items eq_refl).
        simpl length. lia.
      * eexists _, _. split; [reflexivity|]. discriminate.
    + eexists _, _. split; [reflexivity|]. discriminate.
  - eexists _, _. split; [reflexivity|]. intros items [= <-]. simpl. lia.
Qed.

Lemma hasitem_loop_scanning_terminates (fuel : nat) (self : view)
    (position obj_size obj_end : Z) (item : string) :
  advances _element_to_dict ->
  (Z.to_nat (obj_end - position) < fuel)%nat ->
  is_Some (hasitem_loop _element_to_dict fuel self
             (Scanning position obj_size obj_end) item).
Proof.
  intros Hadv. revert position.
  induction fuel as [|fuel IH]; intros position Hf; [lia|].
  cbn [hasitem_loop items_next]. unfold scan_next.
  destruct (Z.ltb_spec position obj_end) as [Hlt|Hge]; [|eauto].
  destruct (_element_to_dict _ _ _ _) as [[[name value] position']|e] eqn:Hd;
    [|eauto].
  destruct (decide (name = item)); [eauto|].
  apply Hadv in Hd. destruct (IH position') as [[r t] ->]; [lia|]. eauto.
Qed.

(** X11.  The scan is finite.  With an element decoder that always returns
    a position after the one it was given, the loop of [_items] over a Lazy
    view ends within as many turns as the buffer has bytes, so
    [list(self._items())] and [__hasitem__] return or raise; and a scan that
    completes has returned at most [len(raw) - 5] pairs. *)
Theorem X11_scan_terminates
    (fuel : nat) (self : view) (item : string) :
  advances _element_to_dict ->
  state_of self = Lazy ->
  (length (__raw self) < fuel)%nat ->
  (exists r t,
     consume' fuel self (_items self) = Some (r, t)
     /\ forall items, r = Returned items ->
          Z.of_nat (length items) <= Z.max 0 (len (__raw self) - 5))
  /\ is_Some (hasitem' fuel self item).
Proof.
  intros Hadv Hs Hf. apply lazy_no_cache in Hs.
  unfold _items, __hasitem__. rewrite Hs.
  destruct (items_header (__raw self)) as [[s e]|err] eqn:Hh.
  - destruct (items_header_returned _ _ _ Hh) as (_ & -> & Hle & _).
    unfold len in *.
    assert (Hfuel : (Z.to_nat (s - 1 - 4) < fuel)%nat) by lia.
    split.
    + destruct (consume_scanning_terminates fuel self 4 s (s - 1) Hadv Hfuel)
        as (r & t & Hc & Hb).
      exists r, t. split.
      * destruct fuel as [|fuel']; [lia|]. cbn [consume] in *.
        now rewrite (items_next_created _ _ _ _ Hs Hh).
      * intros items Hr. specialize (Hb items Hr). lia.
    + rewrite (hasitem_loop_created _ _ _ _ _ _ Hs Hh).
      destruct (hasitem_loop_scanning_terminates fuel self 4 s (s - 1) item
                  Hadv Hfuel) as [[r t] ->]. eauto.
  - destruct fuel as [|fuel']; [lia|]. cbn [consume hasitem_loop].
    rewrite (items_next_header_error _ _ _ Hs Hh). split; [|eauto].
    eexists _, _. split; [reflexivity|]. discriminate.
Qed.

(** *** An element that does not decode *)

Lemma pull_scanning_error (n : nat) (self : view)
    (position obj_size obj_end : Z)
    (items : list (string * Value)) (ps : list Z) (final : Z) (err : exn) :
  decoded_prefix _element_to_dict n (__raw self) (__codec_options self)
    position obj_size obj_end = Some (items, ps, final) ->
  final < obj_end ->
  _element_to_dict (__raw self) final obj_size (__codec_options self)
  = Raised err ->
  pull' (S n) self (Scanning position obj_size obj_end)
  = (yields items ++ [Raise err], Exhausted,
     map ElementDecode (ps ++ [final])).
Proof.
  intros Hp Hlt Hd. revert position items ps Hp.
  induction n as [|n IH]; intros position items ps.
  - intros [= <- <- <-]. cbn [pull items_next]. unfold scan_next, raw.
    destruct (Z.ltb_spec position obj_end); [|lia]. now rewrite Hd.
  - cbn [decoded_prefix].
    destruct (position <? obj_end) eqn:Hpos; [|discriminate].
    destruct (_element_to_dict _ position _ _)
      as [[[name value] position']|e] eqn:Hd1; [|discriminate].
    destruct (decoded_prefix _ n _ _ position' _ _)
      as [[[items' ps'] final']|] eqn:Hp'; [|discriminate].
    intros [= <- <- <-]. specialize (IH _ _ _ Hp').
    change (pull' (S (S n)) self (Scanning position obj_size obj_end))
      with (let '(r, g', t) := next' self (Scanning position obj_size obj_end)
            in let '(rs, g'', t') := pull' (S n) self g' in
               (r :: rs, g'', t ++ t')).
    cbn [items_next]. unfold scan_next, raw. rewrite Hpos, Hd1, IH.
    reflexivity.
Qed.

Lemma consume_scanning_error (n fuel : nat) (self : view)
    (position obj_size obj_end : Z)
    (items : list (string * Value)) (ps : list Z) (final : Z) (err : exn) :
  decoded_prefix _element_to_dict n (__raw self) (__codec_options self)
    position obj_size obj_end = Some (items, ps, final) ->
  final < obj_end ->
  _element_to_dict (__raw self) final obj_size (__codec_options self)
  = Raised err ->
  (n < fuel)%nat ->
  consume' fuel self (Scanning position obj_size obj_end)
  = Some (Raised err, map ElementDecode (ps ++ [final])).
Proof.
  intros Hp Hlt Hd. revert fuel position items ps Hp.
  induction n as [|n IH]; intros fuel position items ps;
    (destruct fuel as [|fuel]; [lia|]).
  - intros [= <- <- <-] _. cbn [consume items_next]. unfold scan_next, raw.
    destruct (Z.ltb_spec position obj_end); [|lia]. now rewrite Hd.
  - cbn [decoded_prefix].
    destruct (position <? obj_end) eqn:Hpos; [|discriminate].
    destruct (_element_to_dict _ position _ _)
      as [[[name value] position']|e] eqn:Hd1; [|discriminate].
    destruct (decoded_prefix _ n _ _ position' _ _)
      as [[[items' ps'] final']|] eqn:Hp'; [|discriminate].
    intros [= <- <- <-] Hf. cbn [consume items_next].
    unfold scan_next, raw. rewrite Hpos, Hd1.
    rewrite (IH fuel _ _ _ Hp') by lia. reflexivity.
Qed.

(** X12.  An element that does not decode ends the scan with the decoder's
    own error.  On a Lazy view whose buffer passes the header checks and
    whose first [n] elements decode, if the decoder raises [err] on the
    next element, then [n + 1] pulls yield the [n] pairs and then raise
    [err], after which the generator is finished; [list(self._items())]
    raises [err]; and the scanning membership test raises [err] too when
    none of the [n] names is the one asked for, leaving the view Lazy. *)
Theorem X12_element_error_ends_the_scan
    (n fuel : nat) (self : view) (obj_size obj_end : Z) (item : string)
    (items : list (string * Value)) (ps : list Z) (final : Z) (err : exn) :
  state_of self = Lazy ->
  items_header (__raw self) = Returned (obj_size, obj_end) ->
  decoded_prefix _element_to_dict n (__raw self) (__codec_options self)
    4 obj_size obj_end = Some (items, ps, final) ->
  final < obj_end ->
  _element_to_dict (__raw self) final obj_size (__codec_options self)
  = Raised err ->
  (n < fuel)%nat ->
  pull' (S n) self (_items self)
  = (yields items ++ [Raise err], Exhausted,
     map ElementDecode (ps ++ [final]))
  /\ consume' fuel self (_items self)
     = Some (Raised err, map ElementDecode (ps ++ [final]))
  /\ (Forall (fun kv => kv.1 <> item) items ->
      hasitem' fuel self item
      = Some (Raised err, self, map ElementDecode (ps ++ [final]))).
Proof.
  intros Hs Hh Hp Hlt Hd Hf. apply lazy_no_cache in Hs.
  pose proof (items_next_created _element_to_dict _ _ _ Hs Hh) as Hn.
  split; [|split].
  - rewrite <- (pull_scanning_error n self 4 obj_size obj_end items ps final
                  err Hp Hlt Hd).
    unfold _items. cbn [pull]. now rewrite Hn.
  - rewrite <- (consume_scanning_error n fuel self 4 obj_size obj_end items
                  ps final err Hp Hlt Hd Hf).
    destruct fuel as [|fuel]; [lia|]. unfold _items. cbn [consume].
    now rewrite Hn.
  - intros Hall. unfold __hasitem__. rewrite Hs.
    rewrite (hasitem_loop_created _ _ _ _ _ _ Hs Hh).
    replace fuel with (n + S (fuel - S n))%nat by lia.
    rewrite (hasitem_loop_skip _ _ _ _ _ _ _ _ _ _ _ Hp Hall).
    cbn [hasitem_loop items_next]. unfold scan_next, raw.
    destruct (Z.ltb_spec final obj_end); [|lia]. rewrite Hd.
    now rewrite map_app.
Qed.

End FurtherProperties.

(** ** The further properties on concrete buffers *)

Lemma sample_element_to_dict_advances : advances sample_element_to_dict.
Proof.
  intros data position obj_end opts name value position'.
  unfold sample_element_to_dict.
  destruct (Z.ltb_spec position 0) as [|Hpos]; [discriminate|].
  destruct (drop _ data) as [|element_type rest]; [discriminate|].
  destruct (get_c_string rest) as [[s n]|]; [|discriminate].
  destruct (decide (element_type = Byte.x10)) as [_|_].
  - destruct (_UNPACK_INT _) as [v|err]; [|discriminate].
    intros [= _ _ <-]. lia.
  - destruct (decide (element_type = Byte.x0a)) as [_|_]; [|discriminate].
    intros [= _ _ <-]. lia.
Qed.

Section FurtherConcrete.

Import Samples.

Abbreviation sview := (RawBSONDocument bson_value).
Abbreviation a_b := (dict_of_items [("a", Int32 1); ("b", Null)]).
Abbreviation unknown_type := (DecoderError "unknown element type").

Lemma X1_witness :
  let self : sview := __init__ [Byte.x05; Byte.x00] DEFAULT_CODEC_OPTIONS in
  items_next sample_element_to_dict self (_items self)
  = (Raise struct_error, Exhausted, [])
  /\ consume sample_element_to_dict 1 self (_items self)
     = Some (Raised struct_error, [])
  /\ __hasitem__ sample_element_to_dict sample_decode 1 self "a"
     = Some (Raised struct_error, self, []).
Proof.
  apply (X1_short_buffer_struct_error sample_element_to_dict sample_decode
           (__init__ [Byte.x05; Byte.x00] DEFAULT_CODEC_OPTIONS) 1 "a").
  - reflexivity.
  - vm_compute; reflexivity.
  - lia.
Defined.


Lemma X3_witness :
  let opts := {| document_class := other_class "RawBSONDocument";
                 tz_aware := true; uuid_representation := 4 |} in
  let self' : sview :=
    set_inflated_doc (__init__ doc_a_b opts) a_b in
  raw self' = doc_a_b
  /\ document_class (__codec_options self') = dict_class
  /\ tz_aware (__codec_options self') = true
  /\ uuid_representation (__codec_options self') = 4.
Proof.
  apply (X3_buffer_and_options_are_kept sample_element_to_dict sample_decode
           sample_cmp sample_repr doc_a_b
           {| document_class := other_class "RawBSONDocument";
              tz_aware := true; uuid_representation := 4 |}
           [Len; Getitem "a"] _ [FullDecode]).
  vm_compute; reflexivity.
Defined.

Lemma X4_witness :
  let self : sview := __init__ doc_a_then_bad DEFAULT_CODEC_OPTIONS in
  @Exhausted bson_value = Exhausted
  /\ pull sample_element_to_dict 3 self Exhausted
     = ([StopIteration; StopIteration; StopIteration], Exhausted, []).
Proof.
  apply (X4_finished_generator_stays_finished sample_element_to_dict
           (__init__ doc_a_then_bad DEFAULT_CODEC_OPTIONS)
           (Scanning 11 15 14) Exhausted (Raise unknown_type)
           [ElementDecode 11] 3).
  - vm_compute; reflexivity.
  - discriminate.
Defined.

Lemma X5_witness :
  let self : sview := __init__ empty_doc DEFAULT_CODEC_OPTIONS in
  consume sample_element_to_dict 1 self (_items self)
  = Some (Returned [], [])
  /\ __hasitem__ sample_element_to_dict sample_decode 1 self "a"
     = Some (Returned false, self, []).
Proof.
  apply (X5_small_declared_size_scans_empty sample_element_to_dict
           sample_decode (__init__ empty_doc DEFAULT_CODEC_OPTIONS)
           5 4 1 "a").
  - reflexivity.
  - vm_compute; reflexivity.
  - lia.
  - lia.
Defined.

Lemma X6_witness :
  let self : sview :=
    set_inflated_doc (__init__ doc_a_b DEFAULT_CODEC_OPTIONS) a_b in
  consume sample_element_to_dict 3 self (_items self)
  = Some (Returned (map_to_list a_b), [])
  /\ __iter__ sample_decode self
     = Some (Returned (map_to_list a_b).*1, self, [])
  /\ __len__ sample_decode self
     = Some (Returned (Z.of_nat (length (map_to_list a_b))), self, []).
Proof.
  apply (X6_scan_of_a_materialized_view sample_element_to_dict sample_decode
           (set_inflated_doc (__init__ doc_a_b DEFAULT_CODEC_OPTIONS) a_b)
           a_b 3).
  - reflexivity.
  - vm_compute. lia.
Defined.

Lemma X7_witness :
  let self' : sview :=
    set_inflated_doc (__init__ doc_a_b DEFAULT_CODEC_OPTIONS) a_b in
  exists t',
    __getitem__ sample_decode self' "a" = Some (Returned (Int32 1), self', t')
    /\ (state_of self' = Materialized -> t' = []).
Proof.
  apply (X7_getitem_twice sample_decode
           (__init__ doc_a_b DEFAULT_CODEC_OPTIONS) _ "a" _ [FullDecode]).
  vm_compute; reflexivity.
Defined.

Lemma X8_witness :
  let self' : sview :=
    set_inflated_doc (__init__ doc_a_b DEFAULT_CODEC_OPTIONS) a_b in
  NoDup ["a"; "b"]
  /\ __len__ sample_decode self' = Some (Returned 2, self', [])
  /\ (forall key, key ∈ ["a"; "b"] ->
        exists v, __getitem__ sample_decode self' key
                  = Some (Returned v, self', [])
                  /\ __contains__ sample_decode self' key
                     = Some (Returned true, self', []))
  /\ (forall key, key ∉ ["a"; "b"] ->
        __getitem__ sample_decode self' key
        = Some (Raised (KeyError key), self', [])
        /\ __contains__ sample_decode self' key
           = Some (Returned false, self', [])).
Proof.
  apply (X8_mapping_operations_agree sample_decode
           (__init__ doc_a_b DEFAULT_CODEC_OPTIONS) _ ["a"; "b"]
           [FullDecode]).
  vm_compute; reflexivity.
Defined.

Lemma X9_witness :
  let self : sview := __init__ doc_a_b DEFAULT_CODEC_OPTIONS in
  __hasitem__ sample_element_to_dict sample_decode 16 self "b"
  = Some (Returned true, self, [ElementDecode 4; ElementDecode 11])
  /\ length [ElementDecode 4; ElementDecode 11] = 2%nat
  /\ state_of self = Lazy.
Proof.
  apply (X9_hasitem_stops_at_first_match sample_element_to_dict sample_decode
           1 16 (__init__ doc_a_b DEFAULT_CODEC_OPTIONS) 15 14 "b"
           [("a", Int32 1)] [4] 11 Null 14).
  - reflexivity.
  - vm_compute; reflexivity.
  - vm_compute; reflexivity.
  - repeat constructor. discriminate.
  - lia.
  - vm_compute; reflexivity.
  - lia.
Defined.

Lemma X10_witness :
  let self : sview := __init__ doc_a_b DEFAULT_CODEC_OPTIONS in
  exists t',
    __hasitem__ sample_element_to_dict sample_decode 16 self "b"
    = Some (Returned (bool_decide ("b" ∈ ["a"; "b"])), self, t')
    /\ (length t' <= 2)%nat.
Proof.
  apply (X10_hasitem_agrees_with_the_scan sample_element_to_dict
           sample_decode 16 (__init__ doc_a_b DEFAULT_CODEC_OPTIONS) "b"
           [("a", Int32 1); ("b", Null)]
           [ElementDecode 4; ElementDecode 11]).
  vm_compute; reflexivity.
Defined.

Lemma X11_witness :
  let self : sview := __init__ doc_a_b DEFAULT_CODEC_OPTIONS in
  (exists r t,
     consume sample_element_to_dict 16 self (_items self) = Some (r, t)
     /\ forall items, r = Returned items ->
          Z.of_nat (length items) <= Z.max 0 (len (__raw self) - 5))
  /\ is_Some (__hasitem__ sample_element_to_dict sample_decode 16 self "b").
Proof.
  apply (X11_scan_terminates sample_element_to_dict sample_decode 16
           (__init__ doc_a_b DEFAULT_CODEC_OPTIONS) "b").
  - exact sample_element_to_dict_advances.
  - reflexivity.
  - vm_compute. lia.
Defined.

Lemma X12_witness :
  let self : sview := __init__ doc_a_then_bad DEFAULT_CODEC_OPTIONS in
  pull sample_element_to_dict 2 self (_items self)
  = ([Yield "a" (Int32 1); Raise unknown_type], Exhausted,
     [ElementDecode 4; ElementDecode 11])
  /\ consume sample_element_to_dict 16 self (_items self)
     = Some (Raised unknown_type, [ElementDecode 4; ElementDecode 11])
  /\ (Forall (fun kv : string * bson_value => kv.1 <> "z")
        [("a", Int32 1)] ->
      __hasitem__ sample_element_to_dict sample_decode 16 self "z"
      = Some (Raised unknown_type, self,
              [ElementDecode 4; ElementDecode 11])).
Proof.
  apply (X12_element_error_ends_the_scan sample_element_to_dict sample_decode
           1 16 (__init__ doc_a_then_bad DEFAULT_CODEC_OPTIONS) 15 14 "z"
           [("a", Int32 1)] [4] 11 unknown_type).
  - reflexivity.
  - vm_compute; reflexivity.
  - vm_compute; reflexivity.
  - lia.
  - vm_compute; reflexivity.
  - lia.
Defined.

End FurtherConcrete.
